(** * AdminDashboard: the admin console's session gate, sync and mutation logic

    A shallow embedding of [src/pages/AdminDashboard.tsx].  The React
    component is modelled as a record of its [useState] cells together with
    the browser's [localStorage] slot and a chronological trace of the
    effects the handlers perform (navigation, storage removal, console
    output, toasts, backend requests, timers).  Every handler is a state
    transformer; what the outside world answers (the reply of a backend
    call, the clock, the confirm dialog) is an argument of the handler. *)

From Stdlib Require Import ZArith List String Ascii Bool Lia DecimalString.
Import ListNotations.

Local Open Scope string_scope.
Local Open Scope list_scope.

(** ** JavaScript strings

    A [string] is read as a sequence of UTF-16 code units in the Latin-1
    range, one [ascii] per code unit. *)

Module Js.

(** Truthiness of a string: only the empty string is falsy. *)
Definition truthy (s : string) : bool :=
  match s with
  | EmptyString => false
  | String _ _ => true
  end.

(** [a || b] on strings. *)
Definition or (a b : string) : string :=
  if truthy a then a else b.

(** [a || b] where [a] may be [null]. *)
Definition or_null (a : option string) (b : string) : string :=
  match a with
  | Some s => or s b
  | None => b
  end.

(** The WhiteSpace and LineTerminator code units below U+0100:
    TAB, LF, VT, FF, CR, SP and NBSP. *)
Definition is_whitespace (c : ascii) : bool :=
  let n := nat_of_ascii c in
  ((9 <=? n) && (n <=? 13) || (n =? 32) || (n =? 160))%nat.

Fixpoint trimStart (s : string) : string :=
  match s with
  | EmptyString => EmptyString
  | String c r => if is_whitespace c then trimStart r else s
  end.

Fixpoint trimEnd (s : string) : string :=
  match s with
  | EmptyString => EmptyString
  | String c r =>
      match trimEnd r with
      | EmptyString => if is_whitespace c then EmptyString else String c EmptyString
      | r' => String c r'
      end
  end.

(** [s.trim()] *)
Definition trim (s : string) : string := trimEnd (trimStart s).

(** [s.substring(start, stop)]: both indices are clamped to the length and
    swapped when out of order. *)
Definition substring (start stop : nat) (s : string) : string :=
  let len := String.length s in
  let a := Nat.min start len in
  let b := Nat.min stop len in
  String.substring (Nat.min a b) (Nat.max a b - Nat.min a b) s.

(** [a === b] on strings. *)
Definition eqb (a b : string) : bool := String.eqb a b.

End Js.

(** ** The records declared at the top of the file *)

Module AdminSession.
Record t := mk
  { id : string;
    email : string;
    full_name : string;
    loginTime : Z }.
End AdminSession.

Module User.
(** [subscription_end] is declared [string] but [updateUser] stores [null]
    in it, so it is an [option]. *)
Record t := mk
  { id : string;
    email : string;
    full_name : string;
    subscription_tier : string;
    subscription_start : string;
    subscription_end : option string;
    document_count : Z;
    created_at : string }.

(** [{ ...u, subscription_end: e }] *)
Definition with_subscription_end (u : t) (e : option string) : t :=
  mk (id u) (email u) (full_name u) (subscription_tier u)
     (subscription_start u) e (document_count u) (created_at u).
End User.

Module Blog.
Record t := mk
  { id : string;
    title : string;
    content : string;
    excerpt : string;
    published : bool;
    created_at : string }.
End Blog.

(** The two [useState] objects behind the create dialogs. *)
Module NewBlog.
Record t := mk
  { title : string;
    content : string;
    excerpt : string;
    published : bool }.
Definition empty : t := mk "" "" "" false.
End NewBlog.

Module NewUser.
Record t := mk
  { email : string;
    password : string;
    full_name : string;
    subscription_tier : string }.
Definition empty : t := mk "" "" "" "free".
End NewUser.

(** ** Backend requests and observable effects *)

(** The object passed to [from('profiles').update] by [updateUser]. *)
Record ProfilePatch := mkProfilePatch
  { patch_full_name : string;
    patch_subscription_tier : string;
    patch_subscription_end : option string }.

(** The fields [createBlog] inserts and [updateBlog] updates; on insert
    [author_id: null] goes with them. *)
Record BlogData := mkBlogData
  { data_title : string;
    data_content : string;
    data_excerpt : string;
    data_published : bool }.

Inductive Request : Type :=
| SelectProfiles
| SelectBlogs
| AuthSignUp (email password full_name : string)
| AuthGetUser
| AuthAdminDeleteUser (id : string)
| UpdateProfile (id : string) (patch : ProfilePatch)
| UpdateSubscription (id subscription_tier subscription_end : string)
| DeleteProfile (id : string)
| InsertBlog (data : BlogData)
| UpdateBlog (id : string) (patch : BlogData)
| DeleteBlog (id : string).

(** Callbacks handed to [setTimeout] by [createUser]. *)
Inductive Task : Type :=
| PremiumUpgrade (id : string) (subscriptionEnd : string)
| RefreshUsers.

Inductive Level : Type := Log | Warn | Error.

Inductive Event : Type :=
| Navigate (path : string)
| RemoveItem (key : string)
| Console (level : Level) (message : string)
| ToastError (message : string)
| ToastSuccess (message : string)
| Backend (request : Request)
| SetTimeout (task : Task) (ms : Z).

(** What an awaited backend call yields: a resolved [{ data, error: null }],
    a resolved [{ error: { message } }], or a rejected promise. *)
Inductive reply (A : Type) : Type :=
| Ok (data : A)
| Err (message : string)
| Throw.
Arguments Ok {A} data.
Arguments Err {A} message.
Arguments Throw {A}.

(** ** Component state *)

Record State := mkState
  { localStorage : option string;
    adminSession : option AdminSession.t;
    users : list User.t;
    blogs : list Blog.t;
    editingBlog : option Blog.t;
    editingUser : option User.t;
    isCreateBlogOpen : bool;
    isCreateUserOpen : bool;
    newBlog : NewBlog.t;
    newUser : NewUser.t;
    loading : bool;
    trace : list Event }.

(** The state right after the first render, with [stored] under the
    ['adminSession'] key of [localStorage]. *)
Definition initial (stored : option string) : State :=
  mkState stored None [] [] None None false false NewBlog.empty NewUser.empty true [].

Definition Op := State -> State.

Definition emit (e : Event) : Op := fun st =>
  mkState (localStorage st) (adminSession st) (users st) (blogs st) (editingBlog st)
    (editingUser st) (isCreateBlogOpen st) (isCreateUserOpen st) (newBlog st)
    (newUser st) (loading st) (trace st ++ [e]).

Definition removeItem (key : string) : Op := fun st =>
  emit (RemoveItem key)
    (mkState None (adminSession st) (users st) (blogs st) (editingBlog st)
       (editingUser st) (isCreateBlogOpen st) (isCreateUserOpen st) (newBlog st)
       (newUser st) (loading st) (trace st)).

Definition setAdminSession (v : option AdminSession.t) : Op := fun st =>
  mkState (localStorage st) v (users st) (blogs st) (editingBlog st)
    (editingUser st) (isCreateBlogOpen st) (isCreateUserOpen st) (newBlog st)
    (newUser st) (loading st) (trace st).

Definition setUsers (v : list User.t) : Op := fun st =>
  mkState (localStorage st) (adminSession st) v (blogs st) (editingBlog st)
    (editingUser st) (isCreateBlogOpen st) (isCreateUserOpen st) (newBlog st)
    (newUser st) (loading st) (trace st).

Definition setBlogs (v : list Blog.t) : Op := fun st =>
  mkState (localStorage st) (adminSession st) (users st) v (editingBlog st)
    (editingUser st) (isCreateBlogOpen st) (isCreateUserOpen st) (newBlog st)
    (newUser st) (loading st) (trace st).

Definition setEditingBlog (v : option Blog.t) : Op := fun st =>
  mkState (localStorage st) (adminSession st) (users st) (blogs st) v
    (editingUser st) (isCreateBlogOpen st) (isCreateUserOpen st) (newBlog st)
    (newUser st) (loading st) (trace st).

Definition setEditingUser (v : option User.t) : Op := fun st =>
  mkState (localStorage st) (adminSession st) (users st) (blogs st) (editingBlog st)
    v (isCreateBlogOpen st) (isCreateUserOpen st) (newBlog st)
    (newUser st) (loading st) (trace st).

Definition setIsCreateBlogOpen (v : bool) : Op := fun st =>
  mkState (localStorage st) (adminSession st) (users st) (blogs st) (editingBlog st)
    (editingUser st) v (isCreateUserOpen st) (newBlog st)
    (newUser st) (loading st) (trace st).

Definition setIsCreateUserOpen (v : bool) : Op := fun st =>
  mkState (localStorage st) (adminSession st) (users st) (blogs st) (editingBlog st)
    (editingUser st) (isCreateBlogOpen st) v (newBlog st)
    (newUser st) (loading st) (trace st).

Definition setNewBlog (v : NewBlog.t) : Op := fun st =>
  mkState (localStorage st) (adminSession st) (users st) (blogs st) (editingBlog st)
    (editingUser st) (isCreateBlogOpen st) (isCreateUserOpen st) v
    (newUser st) (loading st) (trace st).

Definition setNewUser (v : NewUser.t) : Op := fun st =>
  mkState (localStorage st) (adminSession st) (users st) (blogs st) (editingBlog st)
    (editingUser st) (isCreateBlogOpen st) (isCreateUserOpen st) (newBlog st)
    v (loading st) (trace st).

Definition setLoading (v : bool) : Op := fun st =>
  mkState (localStorage st) (adminSession st) (users st) (blogs st) (editingBlog st)
    (editingUser st) (isCreateBlogOpen st) (isCreateUserOpen st) (newBlog st)
    (newUser st) v (trace st).

(** Statements run left to right. *)
Definition andThen (f g : Op) : Op := fun st => g (f st).
Notation "f ;; g" := (andThen f g) (at level 61, left associativity).

Definition console (l : Level) (m : string) : Op := emit (Console l m).
Definition toast_error (m : string) : Op := emit (ToastError m).
Definition toast_success (m : string) : Op := emit (ToastSuccess m).
Definition navigate (path : string) : Op := emit (Navigate path).
Definition request (r : Request) : Op := emit (Backend r).
Definition setTimeout (t : Task) (ms : Z) : Op := emit (SetTimeout t ms).

(** ** The handlers of [AdminDashboard] *)

(** What [JSON.parse] returns when it does not throw: the literal [null],
    on which reading [loginTime] throws a TypeError, or a value read
    through the [AdminSession] interface, whose [loginTime] is a number
    (an integer count of milliseconds, as [Date.now()] produces). *)
Inductive JsonValue : Type :=
| JNull
| JSession (s : AdminSession.t).

Section Handlers.

(** Two functions of the JavaScript runtime.  [JSON_parse s] is [None] when
    [JSON.parse(s)] throws a SyntaxError; [toISOString t] is
    [new Date(t).toISOString()]. *)
Variable JSON_parse : string -> option JsonValue.
Variable toISOString : Z -> string.

Definition fetchUsers (r : reply (option (list User.t))) : Op :=
  console Log "Fetching users..." ;;
  request SelectProfiles ;;
  match r with
  | Err message =>
      console Error "Error fetching users:" ;;
      toast_error ("Failed to fetch users: " ++ message)
  | Ok data =>
      console Log "Fetched users:" ;;
      setUsers (match data with Some l => l | None => [] end)
  | Throw =>
      console Error "Error fetching users:" ;;
      toast_error "Failed to fetch users"
  end.

Definition fetchBlogs (r : reply (option (list Blog.t))) : Op :=
  console Log "Fetching blogs..." ;;
  request SelectBlogs ;;
  match r with
  | Err message =>
      console Error "Error fetching blogs:" ;;
      toast_error ("Failed to fetch blogs: " ++ message)
  | Ok data =>
      console Log "Fetched blogs:" ;;
      setBlogs (match data with Some l => l | None => [] end)
  | Throw =>
      console Error "Error fetching blogs:" ;;
      toast_error "Failed to fetch blogs"
  end.

(** Neither fetch rejects (each has its own [catch]), so [Promise.all]
    settles once both have run and the [finally] clears the flag.  The two
    fetches touch different cells; they are run one after the other here
    and the interleaving of their console lines is not kept. *)
Definition fetchData (ru : reply (option (list User.t)))
    (rb : reply (option (list Blog.t))) : Op :=
  setLoading true ;; fetchUsers ru ;; fetchBlogs rb ;; setLoading false.

(** The first [useEffect]: the session check run on mount. *)
Definition invalidSession : Op :=
  console Error "Invalid session:" ;;
  removeItem "adminSession" ;;
  navigate "/admin".

Definition sessionCheck (now : Z) (ru : reply (option (list User.t)))
    (rb : reply (option (list Blog.t))) : Op := fun st =>
  match localStorage st with
  | None => navigate "/admin" st
  | Some session =>
      if negb (Js.truthy session) then navigate "/admin" st
      else
        match JSON_parse session with
        | None => invalidSession st
        | Some JNull => invalidSession st
        | Some (JSession parsedSession) =>
            if (now - AdminSession.loginTime parsedSession >? 24 * 60 * 60 * 1000)%Z
            then (removeItem "adminSession" ;; navigate "/admin") st
            else (setAdminSession (Some parsedSession) ;; fetchData ru rb) st
        end
  end.

(** The delayed profile update scheduled by [createUser]. *)
Definition premiumUpgrade (r : reply unit) (id subscriptionEnd : string) : Op :=
  request (UpdateSubscription id "premium" subscriptionEnd) ;;
  match r with
  | Err message =>
      console Error "Profile update error:" ;;
      toast_error ("User created but subscription update failed: " ++ message)
  | _ => fun st => st
  end.

Definition createUser (now : Z) (r : reply (option string)) : Op := fun st =>
  let nu := newUser st in
  if negb (Js.truthy (Js.trim (NewUser.email nu)))
     || negb (Js.truthy (Js.trim (NewUser.password nu)))
  then toast_error "Please fill in email and password" st
  else
    let st := (console Log "Creating user:" ;;
               request (AuthSignUp (NewUser.email nu) (NewUser.password nu)
                          (NewUser.full_name nu))) st in
    match r with
    | Err message =>
        (console Error "Auth error:" ;;
         toast_error ("Failed to create user: " ++ message)) st
    | Throw =>
        (console Error "Error creating user:" ;;
         toast_error "Failed to create user") st
    | Ok user =>
        let st := console Log "User created in auth:" st in
        let st :=
          match user with
          | Some uid =>
              if Js.eqb (NewUser.subscription_tier nu) "premium"
              then setTimeout
                     (PremiumUpgrade uid
                        (toISOString (now + 30 * 24 * 60 * 60 * 1000)%Z)) 1000 st
              else st
          | None => st
          end in
        (setNewUser NewUser.empty ;;
         setIsCreateUserOpen false ;;
         toast_success "User created successfully! They will receive a confirmation email." ;;
         setTimeout RefreshUsers 1500) st
    end.

(** [subscriptionEnd] as computed at the top of [updateUser]. *)
Definition subscriptionEnd (now : Z) (editingUser : User.t) : option string :=
  if Js.eqb (User.subscription_tier editingUser) "premium"
  then Some (Js.or_null (User.subscription_end editingUser)
               (toISOString (now + 30 * 24 * 60 * 60 * 1000)%Z))
  else None.

Definition updateUser (now : Z) (r : reply unit) : Op := fun st =>
  match editingUser st with
  | None => st
  | Some editingUser =>
      let subscriptionEnd := subscriptionEnd now editingUser in
      let st :=
        (console Log "Updating user:" ;;
         request (UpdateProfile (User.id editingUser)
                    (mkProfilePatch (User.full_name editingUser)
                       (User.subscription_tier editingUser) subscriptionEnd))) st in
      match r with
      | Err message =>
          (console Error "Update error:" ;;
           toast_error ("Failed to update user: " ++ message)) st
      | Throw =>
          (console Error "Error updating user:" ;;
           toast_error "Failed to update user") st
      | Ok _ =>
          (console Log "User updated successfully" ;;
           setUsers
             (map (fun user =>
                     if Js.eqb (User.id user) (User.id editingUser)
                     then User.with_subscription_end editingUser subscriptionEnd
                     else user)
                  (users st)) ;;
           setEditingUser None ;;
           toast_success "User updated successfully") st
      end
  end.

(** [confirmed] is the answer of the [confirm] dialog, [rp] the reply of the
    profile delete and [ra] that of [auth.admin.deleteUser], whose resolved
    value is discarded: only a rejection reaches the inner [catch]. *)
Definition deleteUser (confirmed : bool) (rp ra : reply unit) (id : string) : Op :=
  fun st =>
  if negb confirmed then st
  else
    let st := (console Log "Deleting user:" ;; request (DeleteProfile id)) st in
    match rp with
    | Err message =>
        (console Error "Profile delete error:" ;;
         toast_error ("Failed to delete user profile: " ++ message)) st
    | Throw =>
        (console Error "Error deleting user:" ;;
         toast_error "Failed to delete user") st
    | Ok _ =>
        let st := request (AuthAdminDeleteUser id) st in
        let st :=
          match ra with
          | Throw => console Warn "Auth delete failed, but profile was deleted:" st
          | _ => st
          end in
        (console Log "User deleted successfully" ;;
         setUsers (filter (fun user => negb (Js.eqb (User.id user) id)) (users st)) ;;
         toast_success "User deleted successfully") st
    end.

(** [blogData] of [createBlog]. *)
Definition blogData (newBlog : NewBlog.t) : BlogData :=
  mkBlogData (NewBlog.title newBlog) (NewBlog.content newBlog)
    (Js.or (NewBlog.excerpt newBlog)
       (Js.substring 0 150 (NewBlog.content newBlog) ++ "..."))
    (NewBlog.published newBlog).

(** [rg] is the reply of [auth.getUser], [ri] that of the insert and [rf]
    that of the refresh started on success. *)
Definition createBlog (rg : reply unit) (ri : reply Blog.t)
    (rf : reply (option (list Blog.t))) : Op := fun st =>
  let nb := newBlog st in
  if negb (Js.truthy (Js.trim (NewBlog.title nb)))
     || negb (Js.truthy (Js.trim (NewBlog.content nb)))
  then toast_error "Please fill in title and content" st
  else
    let failed :=
      console Error "Error creating blog:" ;; toast_error "Failed to create blog" in
    let st := (console Log "Creating blog:" ;; request AuthGetUser) st in
    match rg with
    | Throw => failed st
    | _ =>
        let st :=
          (console Log "Current user for blog creation:" ;;
           console Log "Blog data to insert:" ;;
           request (InsertBlog (blogData nb))) st in
        match ri with
        | Err message =>
            (console Error "Blog create error:" ;;
             toast_error ("Failed to create blog: " ++ message)) st
        | Throw => failed st
        | Ok _ =>
            (console Log "Blog created successfully:" ;;
             setNewBlog NewBlog.empty ;;
             setIsCreateBlogOpen false ;;
             toast_success "Blog created successfully" ;;
             fetchBlogs rf) st
        end
    end.

(** The object [updateBlog] passes to [update]. *)
Definition blogPatch (editingBlog : Blog.t) : BlogData :=
  mkBlogData (Blog.title editingBlog) (Blog.content editingBlog)
    (Js.or (Blog.excerpt editingBlog)
       (Js.substring 0 150 (Blog.content editingBlog) ++ "..."))
    (Blog.published editingBlog).

(** [!editingBlog?.title.trim() || !editingBlog?.content.trim()]: with no
    draft both optional chains are [undefined]. *)
Definition blogDraftInvalid (editingBlog : option Blog.t) : bool :=
  match editingBlog with
  | None => true
  | Some b =>
      negb (Js.truthy (Js.trim (Blog.title b)))
      || negb (Js.truthy (Js.trim (Blog.content b)))
  end.

Definition updateBlog (r : reply Blog.t) : Op := fun st =>
  match editingBlog st with
  | None => toast_error "Please fill in title and content" st
  | Some editingBlog =>
      if blogDraftInvalid (Some editingBlog)
      then toast_error "Please fill in title and content" st
      else
        let st :=
          (console Log "Updating blog:" ;;
           request (UpdateBlog (Blog.id editingBlog) (blogPatch editingBlog))) st in
        match r with
        | Err message =>
            (console Error "Blog update error:" ;;
             toast_error ("Failed to update blog: " ++ message)) st
        | Throw =>
            (console Error "Error updating blog:" ;;
             toast_error "Failed to update blog") st
        | Ok data =>
            (console Log "Blog updated successfully:" ;;
             setBlogs
               (map (fun blog =>
                       if Js.eqb (Blog.id blog) (Blog.id editingBlog) then data else blog)
                    (blogs st)) ;;
             setEditingBlog None ;;
             toast_success "Blog updated successfully") st
        end
  end.

Definition deleteBlog (confirmed : bool) (r : reply unit) (id : string) : Op :=
  fun st =>
  if negb confirmed then st
  else
    let st := (console Log "Deleting blog:" ;; request (DeleteBlog id)) st in
    match r with
    | Err message =>
        (console Error "Blog delete error:" ;;
         toast_error ("Failed to delete blog: " ++ message)) st
    | Throw =>
        (console Error "Error deleting blog:" ;;
         toast_error "Failed to delete blog") st
    | Ok _ =>
        (console Log "Blog deleted successfully" ;;
         setBlogs (filter (fun blog => negb (Js.eqb (Blog.id blog) id)) (blogs st)) ;;
         toast_success "Blog deleted successfully") st
    end.

Definition handleSignOut : Op :=
  removeItem "adminSession" ;; navigate "/admin".

End Handlers.

(** The figures computed before the markup is returned. *)
Definition totalUsers (users : list User.t) : Z :=
  Z.of_nat (List.length users).

Definition premiumUsers (users : list User.t) : Z :=
  Z.of_nat
    (List.length
       (filter (fun user => Js.eqb (User.subscription_tier user) "premium") users)).

Definition totalRevenue (users : list User.t) : Z :=
  (premiumUsers users * 9)%Z.

(** ** The listeners, the timers, the dialogs and the table cells *)

(** The callbacks of the two [postgres_changes] listeners. *)
Definition onUsersChange (r : reply (option (list User.t))) : Op :=
  console Log "Users data changed:" ;; fetchUsers r.

Definition onBlogsChange (r : reply (option (list Blog.t))) : Op :=
  console Log "Blogs data changed:" ;; fetchBlogs r.



(** A callback handed to [setTimeout], run when its timer fires; [ru] and
    [rp] are the replies of the backend call it makes. *)
Definition runTask (ru : reply (option (list User.t))) (rp : reply unit)
    (t : Task) : Op :=
  match t with
  | PremiumUpgrade id subscriptionEnd => premiumUpgrade rp id subscriptionEnd
  | RefreshUsers => fetchUsers ru
  end.

(** The edit button of a row and the fields of the edit-user dialog; each
    field handler is [setEditingUser(editingUser ? { ...editingUser, f: v } : null)]. *)
Definition openEditUser (user : User.t) : Op := setEditingUser (Some user).

Definition changeEditingUserName (v : string) : Op := fun st =>
  setEditingUser
    (match editingUser st with
     | Some u =>
         Some (User.mk (User.id u) (User.email u) v (User.subscription_tier u)
                 (User.subscription_start u) (User.subscription_end u)
                 (User.document_count u) (User.created_at u))
     | None => None
     end) st.

Definition changeEditingUserTier (v : string) : Op := fun st =>
  setEditingUser
    (match editingUser st with
     | Some u =>
         Some (User.mk (User.id u) (User.email u) (User.full_name u) v
                 (User.subscription_start u) (User.subscription_end u)
                 (User.document_count u) (User.created_at u))
     | None => None
     end) st.

Definition changeEditingUserEnd (v : string) : Op := fun st =>
  setEditingUser
    (match editingUser st with
     | Some u => Some (User.with_subscription_end u (Some v))
     | None => None
     end) st.

(** [s.split(sep)[0]] for a one-character separator: the part of [s]
    before the first [sep], all of [s] when there is none. *)
Fixpoint splitHead (sep : ascii) (s : string) : string :=
  match s with
  | EmptyString => EmptyString
  | String c r => if Ascii.eqb c sep then EmptyString else String c (splitHead sep r)
  end.

(** The value of the dialog's date input:
    [editingUser?.subscription_end ? editingUser.subscription_end.split('T')[0] : '']. *)
Definition dateInputValue (editingUser : option User.t) : string :=
  match editingUser with
  | Some u =>
      match User.subscription_end u with
      | Some e => if Js.truthy e then splitHead "T" e else ""
      | None => ""
      end
  | None => ""
  end.

(** The plan badge of a row of the users table. *)
Definition planLabel (user : User.t) : string :=
  if Js.eqb (User.subscription_tier user) "premium" then "Pro" else "Free".

(** The timers set so far firing one after the other, in the order they
    were set; every firing gets the replies [ru] and [rp]. *)
Definition fireTimers (ru : reply (option (list User.t))) (rp : reply unit)
    (l : list (Task * Z)) : Op :=
  fold_left (fun f tm => f ;; runTask ru rp (fst tm)) l (fun st => st).

(** ** Vocabulary of the statements *)

(** The events a handler adds to the trace. *)
Definition effects (f : Op) (st : State) : list Event :=
  skipn (List.length (trace st)) (trace (f st)).

Definition isBackend (e : Event) : bool :=
  match e with
  | Backend _ => true
  | _ => false
  end.

(** The backend calls a handler issues, in order. *)
Definition requests (f : Op) (st : State) : list Event :=
  filter isBackend (effects f st).

(** A string that is empty or consists of white space only. *)
Fixpoint blank (s : string) : bool :=
  match s with
  | EmptyString => true
  | String c r => Js.is_whitespace c && blank r
  end.

(** The first [n] characters of [s]; all of [s] when it is shorter. *)
Fixpoint firstChars (n : nat) (s : string) : string :=
  match n, s with
  | S n', String c r => String c (firstChars n' r)
  | _, _ => EmptyString
  end.

(** The excerpt rule in the specification's words. *)
Definition excerptRule (excerpt content : string) : string :=
  if string_dec excerpt "" then firstChars 150 content ++ "..." else excerpt.

(** The number of accounts whose tier is premium. *)
Fixpoint countPremium (l : list User.t) : nat :=
  match l with
  | [] => 0
  | u :: r =>
      if string_dec (User.subscription_tier u) "premium"
      then S (countPremium r)
      else countPremium r
  end.

(** A handler that only raised the error toast [msg]: no backend call, and
    the cached lists, the drafts and the forms as they were. *)
Definition rejectedWith (msg : string) (f : Op) (st : State) : Prop :=
  effects f st = [ToastError msg]
  /\ requests f st = []
  /\ users (f st) = users st
  /\ blogs (f st) = blogs st
  /\ editingUser (f st) = editingUser st
  /\ editingBlog (f st) = editingBlog st
  /\ newUser (f st) = newUser st
  /\ newBlog (f st) = newBlog st.

(** The excerpts carried by the blog inserts and updates among [evs]. *)
Definition storedExcerpts (evs : list Event) : list string :=
  flat_map
    (fun e =>
       match e with
       | Backend (InsertBlog d) => [data_excerpt d]
       | Backend (UpdateBlog _ d) => [data_excerpt d]
       | _ => []
       end) evs.

(** A draft merged with the update the server applied to the row: the
    updated columns come from the patch, the others from the draft. *)
Definition mergePatch (draft : User.t) (p : ProfilePatch) : User.t :=
  User.mk (User.id draft) (User.email draft) (patch_full_name p)
    (patch_subscription_tier p) (User.subscription_start draft)
    (patch_subscription_end p) (User.document_count draft)
    (User.created_at draft).

(** A draft without an expiry: [null] or the empty string. *)
Definition noExpiry (u : User.t) : Prop :=
  User.subscription_end u = None \/ User.subscription_end u = Some "".

(** Outcomes of the session check [f] started in [st].  The session is
    admitted: it becomes the page's admin session, the stored token stays,
    and the check neither navigates nor removes anything. *)
Definition admits (s : AdminSession.t) (f : Op) (st : State) : Prop :=
  adminSession (f st) = Some s
  /\ localStorage (f st) = localStorage st
  /\ (forall e, In e (effects f st) ->
        (forall path, e <> Navigate path) /\ (forall key, e <> RemoveItem key)).

(** The token is deleted and the visitor sent to the login page. *)
Definition evicts (f : Op) (st : State) : Prop :=
  effects f st = [RemoveItem "adminSession"; Navigate "/admin"]
  /\ localStorage (f st) = None
  /\ adminSession (f st) = adminSession st.

(** The same, through the [catch] branch, which logs first. *)
Definition invalidates (f : Op) (st : State) : Prop :=
  effects f st
  = [Console Error "Invalid session:"; RemoveItem "adminSession"; Navigate "/admin"]
  /\ localStorage (f st) = None
  /\ adminSession (f st) = adminSession st.

(** The visitor is sent to the login page and the storage is not touched. *)
Definition turnsAway (f : Op) (st : State) : Prop :=
  effects f st = [Navigate "/admin"]
  /\ localStorage (f st) = localStorage st
  /\ adminSession (f st) = adminSession st.

(** The timers among [evs], in the order they were set. *)
Definition timers (evs : list Event) : list (Task * Z) :=
  flat_map
    (fun e =>
       match e with
       | SetTimeout t ms => [(t, ms)]
       | _ => []
       end) evs.

(** The error toasts among [evs]. *)
Definition errorToasts (evs : list Event) : list string :=
  flat_map
    (fun e =>
       match e with
       | ToastError m => [m]
       | _ => []
       end) evs.

(** The success toasts among [evs]. *)
Definition successToasts (evs : list Event) : list string :=
  flat_map
    (fun e =>
       match e with
       | ToastSuccess m => [m]
       | _ => []
       end) evs.

(** A row that saving does not alter: premium with an end date, or not
    premium and without one. *)
Definition settled (u : User.t) : Prop :=
  (User.subscription_tier u = "premium"
   /\ exists e, User.subscription_end u = Some e /\ e <> "")
  \/ (User.subscription_tier u <> "premium" /\ User.subscription_end u = None).

(** The number of occurrences of the character [c] in [s]. *)
Fixpoint occurrences (c : ascii) (s : string) : nat :=
  match s with
  | EmptyString => 0
  | String a r => (if Ascii.eqb a c then 1 else 0) + occurrences c r
  end.

(** One for a premium account, zero for any other. *)
Definition premiumBit (u : User.t) : Z :=
  if string_dec (User.subscription_tier u) "premium" then 1%Z else 0%Z.

(** The id column of the accounts cache. *)
Definition userIds (l : list User.t) : list string := map User.id l.

(** ** Sample data

    A dashboard with three accounts and two posts, a stored token, and
    stand-ins for the two runtime functions: [sampleParse] knows the sample
    token and the literal [null] and rejects every other text, and [stamp]
    renders an instant as its number of milliseconds. *)

Definition quote : string := String (ascii_of_nat 34) "".

Definition sampleSession : AdminSession.t :=
  AdminSession.mk "a1" "admin@example.com" "Admin" 1000.

Definition sampleToken : string :=
  "{" ++ quote ++ "id" ++ quote ++ ":" ++ quote ++ "a1" ++ quote ++ ","
  ++ quote ++ "email" ++ quote ++ ":" ++ quote ++ "admin@example.com" ++ quote ++ ","
  ++ quote ++ "full_name" ++ quote ++ ":" ++ quote ++ "Admin" ++ quote ++ ","
  ++ quote ++ "loginTime" ++ quote ++ ":1000}".

Definition sampleParse (raw : string) : option JsonValue :=
  if String.eqb raw sampleToken then Some (JSession sampleSession)
  else if String.eqb raw "null" then Some JNull
  else None.

Definition stamp (t : Z) : string :=
  "ms:" ++ NilZero.string_of_int (Z.to_int t).

Definition alice : User.t :=
  User.mk "u1" "alice@example.com" "Alice" "premium" "2024-01-01T00:00:00.000Z"
    (Some "2030-01-01T00:00:00.000Z") 3 "2024-01-01T00:00:00.000Z".

Definition bob : User.t :=
  User.mk "u2" "bob@example.com" "Bob" "free" "2024-02-01T00:00:00.000Z"
    None 0 "2024-02-01T00:00:00.000Z".

Definition carol : User.t :=
  User.mk "u3" "carol@example.com" "Carol" "premium" "2024-03-01T00:00:00.000Z"
    (Some "2031-06-30") 7 "2024-03-01T00:00:00.000Z".

Definition hello : Blog.t :=
  Blog.mk "b1" "Hello" "First post." "First post." true "2024-01-05T00:00:00.000Z".

Definition notes : Blog.t :=
  Blog.mk "b2" "Notes" "Release notes." "" false "2024-02-05T00:00:00.000Z".

Definition dashboard : State :=
  mkState (Some sampleToken) (Some sampleSession) [alice; bob; carol] [hello; notes]
    None None false false NewBlog.empty NewUser.empty false [].

(** Bob's row opened in the edit dialog and switched to premium. *)
Definition bobPremium : User.t :=
  User.mk "u2" "bob@example.com" "Robert" "premium" "2024-02-01T00:00:00.000Z"
    None 0 "2024-02-01T00:00:00.000Z".

(** Carol's row submitted as it is (premium, with an end date), and Alice's
    row switched to free. *)
Definition carolPremium : User.t := carol.

Definition aliceFree : User.t :=
  User.mk "u1" "alice@example.com" "Alice" "free" "2024-01-01T00:00:00.000Z"
    (Some "2030-01-01T00:00:00.000Z") 3 "2024-01-01T00:00:00.000Z".

Definition editing (draft : User.t) : State := setEditingUser (Some draft) dashboard.

(** The create dialogs filled in: a post without excerpt, a post whose
    title is white space, an account without password. *)
Definition draftPost : NewBlog.t := NewBlog.mk "T" "Short content" "" false.
Definition blankPost : NewBlog.t := NewBlog.mk "   " "Short content" "" false.
Definition blankAccount : NewUser.t := NewUser.mk "dave@example.com" "" "Dave" "free".

(** The second post opened in the edit dialog, and the same with its
    content wiped. *)
Definition notesWiped : Blog.t :=
  Blog.mk "b2" "Notes" "" "" false "2024-02-05T00:00:00.000Z".

(** The row the server returns for the second post once it is saved. *)
Definition notesSaved : Blog.t :=
  Blog.mk "b2" "Notes" "Release notes." "Release notes...." false
    "2024-02-05T00:00:00.000Z".

(** ** Basic facts *)

Lemma skipn_length_app {A} (l evs : list A) :
  skipn (List.length l) (l ++ evs) = evs.
Proof. induction l as [|a l IH]; simpl; auto. Qed.

Lemma js_eqb_eq (a b : string) : Js.eqb a b = true <-> a = b.
Proof. unfold Js.eqb. apply String.eqb_eq. Qed.

Lemma js_eqb_neq (a b : string) : Js.eqb a b = false <-> a <> b.
Proof. unfold Js.eqb. apply String.eqb_neq. Qed.

Lemma trimStart_blank (s : string) : blank s = true -> Js.trimStart s = "".
Proof.
  induction s as [|c r IH]; simpl; intros H; auto.
  apply andb_true_iff in H as [Hc Hr]. rewrite Hc. auto.
Qed.

Lemma trimEnd_head (c : ascii) (r : string) :
  Js.is_whitespace c = false -> Js.trimEnd (String c r) <> "".
Proof.
  intros Hc. simpl. destruct (Js.trimEnd r); [rewrite Hc|]; discriminate.
Qed.

(** [!s.trim()] holds exactly for the blank strings. *)
Lemma trim_falsy_iff (s : string) :
  negb (Js.truthy (Js.trim s)) = true <-> blank s = true.
Proof.
  unfold Js.trim. split.
  - induction s as [|c r IH]; cbn [Js.trimStart blank]; auto.
    destruct (Js.is_whitespace c) eqn:Hc; cbn [andb]; auto.
    intros H. pose proof (trimEnd_head c r Hc) as Hne.
    destruct (Js.trimEnd (String c r)); [congruence | discriminate H].
  - intros H. rewrite (trimStart_blank s H). reflexivity.
Qed.

Lemma trim_truthy_iff (s : string) :
  negb (Js.truthy (Js.trim s)) = false <-> blank s = false.
Proof.
  pose proof (trim_falsy_iff s) as [H1 H2].
  destruct (negb (Js.truthy (Js.trim s))), (blank s); intuition congruence.
Qed.

Lemma substring_from_0 (n : nat) (s : string) :
  String.substring 0 (Nat.min n (String.length s)) s = firstChars n s.
Proof.
  revert n. induction s as [|c r IH]; intros [|n]; simpl; auto.
  f_equal. apply IH.
Qed.

(** [s.substring(0, n)] is the first [n] characters of [s]. *)
Lemma js_substring_firstChars (n : nat) (s : string) :
  Js.substring 0 n s = firstChars n s.
Proof.
  unfold Js.substring. simpl.
  rewrite Nat.sub_0_r. apply substring_from_0.
Qed.

Lemma firstChars_short (n : nat) (s : string) :
  (String.length s <= n)%nat -> firstChars n s = s.
Proof.
  revert n. induction s as [|c r IH]; intros [|n] H; simpl in *; auto; try lia.
  f_equal. apply IH. lia.
Qed.

Lemma firstChars_length (n : nat) (s : string) :
  String.length (firstChars n s) = Nat.min n (String.length s).
Proof.
  revert n. induction s as [|c r IH]; intros [|n]; simpl; auto.
Qed.

Lemma js_or_rule (excerpt content : string) :
  Js.or excerpt (Js.substring 0 150 content ++ "...") = excerptRule excerpt content.
Proof.
  unfold Js.or, excerptRule. rewrite js_substring_firstChars.
  destruct excerpt as [|a r]; simpl; [reflexivity|].
  destruct (string_dec (String a r) ""); [discriminate | reflexivity].
Qed.

(** ** Running a handler symbolically *)

(** Evaluate the state projections of a handler applied to a state: the
    setters and [emit] are unfolded lazily, so that only the field asked
    for is computed. *)
Ltac eval_ops :=
  lazy beta iota zeta delta
    [andThen console toast_error toast_success navigate request setTimeout
     removeItem emit setAdminSession setUsers setBlogs setEditingBlog
     setEditingUser setIsCreateBlogOpen setIsCreateUserOpen setNewBlog
     setNewUser setLoading
     localStorage adminSession users blogs editingBlog editingUser
     isCreateBlogOpen isCreateUserOpen newBlog newUser loading trace].

(** Reduce [effects f st] to the list of events [f] appends. *)
Ltac run_effects :=
  unfold requests, effects; eval_ops;
  repeat rewrite <- app_assoc; cbn [app];
  try rewrite skipn_length_app.

(** ** Revenue *)

Lemma premiumUsers_count (l : list User.t) :
  premiumUsers l = Z.of_nat (countPremium l).
Proof.
  unfold premiumUsers. f_equal.
  induction l as [|u r IH]; simpl; auto.
  destruct (string_dec (User.subscription_tier u) "premium") as [E|N].
  - apply js_eqb_eq in E. rewrite E. simpl. f_equal. exact IH.
  - apply js_eqb_neq in N. rewrite N. exact IH.
Qed.

(** C9. Whatever the accounts cache holds, the revenue figure shown is nine
    times the number of cached accounts whose subscription tier is
    ["premium"]. *)
Theorem totalRevenue_nine_per_premium :
  forall st : State,
    totalRevenue (users st) = (9 * Z.of_nat (countPremium (users st)))%Z.
Proof.
  intros st. unfold totalRevenue. rewrite premiumUsers_count. lia.
Qed.

(** ** Fetching *)

(** C7. A fetch that fails, by an error reply or by a rejected call, leaves
    the cached list as it was and raises an error toast; a fetch that
    succeeds replaces the cached list by the rows of the reply (by the empty
    list when the reply carries no rows).  Stated for [fetchUsers] and for
    [fetchBlogs]. *)
Theorem fetch_failure_keeps_cache :
  forall st : State,
    (forall m,
        users (fetchUsers (Err m) st) = users st
        /\ effects (fetchUsers (Err m)) st =
             [Console Log "Fetching users..."; Backend SelectProfiles;
              Console Error "Error fetching users:";
              ToastError ("Failed to fetch users: " ++ m)])
    /\ (users (fetchUsers Throw st) = users st
        /\ effects (fetchUsers Throw) st =
             [Console Log "Fetching users..."; Backend SelectProfiles;
              Console Error "Error fetching users:";
              ToastError "Failed to fetch users"])
    /\ (forall rows, users (fetchUsers (Ok (Some rows)) st) = rows)
    /\ users (fetchUsers (Ok None) st) = []
    /\ (forall m,
        blogs (fetchBlogs (Err m) st) = blogs st
        /\ effects (fetchBlogs (Err m)) st =
             [Console Log "Fetching blogs..."; Backend SelectBlogs;
              Console Error "Error fetching blogs:";
              ToastError ("Failed to fetch blogs: " ++ m)])
    /\ (blogs (fetchBlogs Throw st) = blogs st
        /\ effects (fetchBlogs Throw) st =
             [Console Log "Fetching blogs..."; Backend SelectBlogs;
              Console Error "Error fetching blogs:";
              ToastError "Failed to fetch blogs"])
    /\ (forall rows, blogs (fetchBlogs (Ok (Some rows)) st) = rows)
    /\ blogs (fetchBlogs (Ok None) st) = [].
Proof.
  intros st.
  repeat split; intros; unfold fetchUsers, fetchBlogs;
    try reflexivity; run_effects; reflexivity.
Qed.

(** A failing fetch changes nothing but the trace. *)
Lemma fetchUsers_failure_frame (st : State) (r : reply (option (list User.t))) :
  (forall d, r <> Ok d) ->
  let st' := fetchUsers r st in
  users st' = users st /\ blogs st' = blogs st
  /\ localStorage st' = localStorage st /\ adminSession st' = adminSession st.
Proof.
  intros H. destruct r as [d|m|]; [destruct (H d eq_refl)| |];
    repeat split; reflexivity.
Qed.

Lemma fetchBlogs_failure_frame (st : State) (r : reply (option (list Blog.t))) :
  (forall d, r <> Ok d) ->
  let st' := fetchBlogs r st in
  users st' = users st /\ blogs st' = blogs st
  /\ localStorage st' = localStorage st /\ adminSession st' = adminSession st.
Proof.
  intros H. destruct r as [d|m|]; [destruct (H d eq_refl)| |];
    repeat split; reflexivity.
Qed.

(** ** Validation *)

Lemma createUser_blank toISOString now r st :
  blank (NewUser.email (newUser st)) = true
  \/ blank (NewUser.password (newUser st)) = true ->
  createUser toISOString now r st
  = toast_error "Please fill in email and password" st.
Proof.
  intros H. unfold createUser.
  destruct H as [H|H]; apply trim_falsy_iff in H; rewrite H;
    [|rewrite orb_true_r]; reflexivity.
Qed.

Lemma createBlog_blank rg ri rf st :
  blank (NewBlog.title (newBlog st)) = true
  \/ blank (NewBlog.content (newBlog st)) = true ->
  createBlog rg ri rf st = toast_error "Please fill in title and content" st.
Proof.
  intros H. unfold createBlog.
  destruct H as [H|H]; apply trim_falsy_iff in H; rewrite H;
    [|rewrite orb_true_r]; reflexivity.
Qed.

Lemma updateBlog_blank r st b :
  editingBlog st = Some b ->
  blank (Blog.title b) = true \/ blank (Blog.content b) = true ->
  updateBlog r st = toast_error "Please fill in title and content" st.
Proof.
  intros E H. unfold updateBlog, blogDraftInvalid. rewrite E.
  destruct H as [H|H]; apply trim_falsy_iff in H; rewrite H;
    [|rewrite orb_true_r]; reflexivity.
Qed.

Lemma toast_error_rejected (msg : string) (f : Op) (st : State) :
  f st = toast_error msg st -> rejectedWith msg f st.
Proof.
  intros E. unfold rejectedWith, requests, effects. rewrite E.
  unfold toast_error. eval_ops.
  rewrite skipn_length_app. repeat split; reflexivity.
Qed.

(** C8. A create-account submission whose email or password is blank, and a
    create-post or edit-post submission whose title or content is blank,
    does nothing but raise the validation toast: no backend call is issued
    and the cached lists and the forms are as before. *)
Theorem blank_submission_rejected :
  forall (toISOString : Z -> string) (now : Z) (st : State),
    (forall r,
        blank (NewUser.email (newUser st)) = true
        \/ blank (NewUser.password (newUser st)) = true ->
        rejectedWith "Please fill in email and password"
          (createUser toISOString now r) st)
    /\ (forall rg ri rf,
        blank (NewBlog.title (newBlog st)) = true
        \/ blank (NewBlog.content (newBlog st)) = true ->
        rejectedWith "Please fill in title and content" (createBlog rg ri rf) st)
    /\ (forall r b,
        editingBlog st = Some b ->
        blank (Blog.title b) = true \/ blank (Blog.content b) = true ->
        rejectedWith "Please fill in title and content" (updateBlog r) st).
Proof.
  intros toISOString now st. split; [|split]; intros.
  - apply toast_error_rejected, createUser_blank; assumption.
  - apply toast_error_rejected, createBlog_blank; assumption.
  - eapply toast_error_rejected, updateBlog_blank; eassumption.
Qed.

Lemma blank_submission_rejected_witness :
  (blank (NewUser.email blankAccount) = true
   \/ blank (NewUser.password blankAccount) = true)
  /\ rejectedWith "Please fill in email and password"
       (createUser stamp 1000 (Ok (Some "u4"))) (setNewUser blankAccount dashboard)
  /\ rejectedWith "Please fill in title and content"
       (createBlog (Ok tt) (Ok hello) (Ok None)) (setNewBlog blankPost dashboard)
  /\ rejectedWith "Please fill in title and content"
       (updateBlog (Ok notesWiped)) (setEditingBlog (Some notesWiped) dashboard).
Proof.
  split; [right; reflexivity|]. split; [|split].
  - apply (proj1 (blank_submission_rejected stamp 1000
                    (setNewUser blankAccount dashboard))).
    right; reflexivity.
  - apply (proj1 (proj2 (blank_submission_rejected stamp 1000
                           (setNewBlog blankPost dashboard)))).
    left; reflexivity.
  - apply (proj2 (proj2 (blank_submission_rejected stamp 1000
                           (setEditingBlog (Some notesWiped) dashboard)))
             (Ok notesWiped) notesWiped).
    + reflexivity.
    + right; reflexivity.
Defined.


(** ** Excerpts *)

Lemma createBlog_excerpt rg ri rf st :
  blank (NewBlog.title (newBlog st)) = false ->
  blank (NewBlog.content (newBlog st)) = false ->
  rg <> Throw ->
  storedExcerpts (effects (createBlog rg ri rf) st)
  = [excerptRule (NewBlog.excerpt (newBlog st)) (NewBlog.content (newBlog st))].
Proof.
  intros Ht Hc Hg. apply trim_truthy_iff in Ht, Hc.
  unfold effects, createBlog, fetchBlogs, blogData. cbv beta zeta.
  rewrite Ht, Hc. cbn [orb].
  destruct rg as [[]|m|]; try congruence;
    destruct ri as [d|m'|]; try destruct rf as [[l|]|m''|];
    run_effects; cbn [storedExcerpts flat_map app data_excerpt];
    rewrite js_or_rule; reflexivity.
Qed.

Lemma updateBlog_excerpt r st b :
  editingBlog st = Some b ->
  blank (Blog.title b) = false ->
  blank (Blog.content b) = false ->
  storedExcerpts (effects (updateBlog r) st)
  = [excerptRule (Blog.excerpt b) (Blog.content b)].
Proof.
  intros E Ht Hc. apply trim_truthy_iff in Ht, Hc.
  unfold effects, updateBlog, blogDraftInvalid, blogPatch. cbv beta zeta.
  rewrite E, Ht, Hc. cbn [orb].
  destruct r as [d|m|];
    run_effects; cbn [storedExcerpts flat_map app data_excerpt];
    rewrite js_or_rule; reflexivity.
Qed.

(** C3. A post created or edited with an empty excerpt is submitted with the
    first 150 characters of its content followed by ["..."] as excerpt,
    which is the whole content followed by ["..."] when the content has 150
    characters or fewer; an excerpt that is not empty is submitted as it
    is.  (A post is submitted when its title and content are not blank and,
    for a new post, the preceding [auth.getUser] call did not reject.) *)
Theorem empty_excerpt_defaults :
  forall st : State,
    (forall rg ri rf,
        blank (NewBlog.title (newBlog st)) = false ->
        blank (NewBlog.content (newBlog st)) = false ->
        rg <> Throw ->
        storedExcerpts (effects (createBlog rg ri rf) st)
        = [excerptRule (NewBlog.excerpt (newBlog st)) (NewBlog.content (newBlog st))])
    /\ (forall r b,
        editingBlog st = Some b ->
        blank (Blog.title b) = false ->
        blank (Blog.content b) = false ->
        storedExcerpts (effects (updateBlog r) st)
        = [excerptRule (Blog.excerpt b) (Blog.content b)])
    /\ (forall content, excerptRule "" content = (firstChars 150 content ++ "...")%string)
    /\ (forall content,
        (String.length content <= 150)%nat ->
        excerptRule "" content = (content ++ "...")%string)
    /\ (forall excerpt content,
        excerpt <> "" -> excerptRule excerpt content = excerpt).
Proof.
  intros st. split; [|split; [|split; [|split]]].
  - intros. apply createBlog_excerpt; assumption.
  - intros. eapply updateBlog_excerpt; eassumption.
  - reflexivity.
  - intros content H. unfold excerptRule. cbn [string_dec].
    destruct (string_dec "" "") as [_|N]; [|congruence].
    rewrite firstChars_short; auto.
  - intros excerpt content H. unfold excerptRule.
    destruct (string_dec excerpt ""); congruence.
Qed.

Lemma empty_excerpt_defaults_witness :
  blank (NewBlog.title draftPost) = false
  /\ blank (NewBlog.content draftPost) = false
  /\ storedExcerpts
       (effects (createBlog (Ok tt) (Ok hello) (Ok None)) (setNewBlog draftPost dashboard))
     = [excerptRule "" "Short content"]
  /\ storedExcerpts
       (effects (updateBlog (Ok notes)) (setEditingBlog (Some notes) dashboard))
     = [excerptRule "" "Release notes."]
  /\ excerptRule "" "Short content" = "Short content..."
  /\ excerptRule "First post." "First post." = "First post.".
Proof.
  split; [reflexivity|]. split; [reflexivity|]. split; [|split; [|split]].
  - apply (proj1 (empty_excerpt_defaults (setNewBlog draftPost dashboard))
             (Ok tt) (Ok hello) (Ok None)).
    + reflexivity.
    + reflexivity.
    + discriminate.
  - apply (proj1 (proj2 (empty_excerpt_defaults
                           (setEditingBlog (Some notes) dashboard)))
             (Ok notes) notes); reflexivity.
  - apply (proj1 (proj2 (proj2 (proj2 (empty_excerpt_defaults dashboard))))
             "Short content").
    simpl. lia.
  - apply (proj2 (proj2 (proj2 (proj2 (empty_excerpt_defaults dashboard))))
             "First post." "First post.").
    discriminate.
Defined.


(** ** Editing an account *)

Lemma updateUser_requests toISOString now r st e :
  editingUser st = Some e ->
  requests (updateUser toISOString now r) st
  = [Backend
       (UpdateProfile (User.id e)
          (mkProfilePatch (User.full_name e) (User.subscription_tier e)
             (subscriptionEnd toISOString now e)))].
Proof.
  intros E. unfold requests, effects, updateUser. rewrite E. cbv beta zeta.
  destruct r as [d|m|]; run_effects; reflexivity.
Qed.

Lemma updateUser_ok_users toISOString now d st e :
  editingUser st = Some e ->
  users (updateUser toISOString now (Ok d) st)
  = map (fun user =>
           if Js.eqb (User.id user) (User.id e)
           then User.with_subscription_end e (subscriptionEnd toISOString now e)
           else user)
        (users st).
Proof. intros E. unfold updateUser. rewrite E. reflexivity. Qed.

(** C1. After a successful account edit every cached record carrying the
    draft's id is, at its position, the draft merged with the update sent to
    and accepted by the server (name, tier and end date as in that update,
    the other columns as in the draft); the records with another id are
    untouched, the list keeps its length, and the only backend call made is
    that one update: the accounts are not fetched again. *)
Theorem updateUser_replaces_in_place :
  forall (toISOString : Z -> string) (now : Z) (d : unit) (st : State) (e : User.t),
    editingUser st = Some e ->
    let patch :=
      mkProfilePatch (User.full_name e) (User.subscription_tier e)
        (subscriptionEnd toISOString now e) in
    let st' := updateUser toISOString now (Ok d) st in
    List.length (users st') = List.length (users st)
    /\ (forall i u,
          nth_error (users st) i = Some u ->
          (User.id u = User.id e ->
           nth_error (users st') i = Some (mergePatch e patch))
          /\ (User.id u <> User.id e -> nth_error (users st') i = Some u))
    /\ requests (updateUser toISOString now (Ok d)) st
        = [Backend (UpdateProfile (User.id e) patch)]
    /\ blogs st' = blogs st.
Proof.
  intros toISOString now d st e E patch st'. subst st'.
  rewrite (updateUser_ok_users _ _ _ _ _ E).
  split; [apply length_map|]. split; [|split].
  - intros i u Hu. split; intros Hid.
    + erewrite map_nth_error by exact Hu.
      apply js_eqb_eq in Hid. rewrite Hid. reflexivity.
    + erewrite map_nth_error by exact Hu.
      apply js_eqb_neq in Hid. rewrite Hid. reflexivity.
  - apply updateUser_requests. exact E.
  - unfold updateUser. rewrite E. reflexivity.
Qed.

Lemma updateUser_replaces_in_place_witness :
  editingUser (editing bobPremium) = Some bobPremium
  /\ (let st' := updateUser stamp 1000 (Ok tt) (editing bobPremium) in
      nth_error (users st') 1
      = Some (mergePatch bobPremium
                (mkProfilePatch "Robert" "premium" (Some "ms:2592001000")))
      /\ nth_error (users st') 0 = Some alice
      /\ requests (updateUser stamp 1000 (Ok tt)) (editing bobPremium)
         = [Backend
              (UpdateProfile "u2"
                 (mkProfilePatch "Robert" "premium" (Some "ms:2592001000")))]).
Proof.
  split; [reflexivity|].
  destruct (updateUser_replaces_in_place stamp 1000 tt (editing bobPremium)
              bobPremium eq_refl) as (_ & R & Q & _).
  split; [|split].
  - exact (proj1 (R 1%nat bob eq_refl) eq_refl).
  - refine (proj2 (R 0%nat alice eq_refl) _). discriminate.
  - exact Q.
Defined.


(** C4. An account edit whose draft has tier premium and no expiry submits,
    whatever the server then answers, an end date that is the rendering of
    the instant 30 * 24 * 60 * 60 * 1000 ms after the clock reading taken by
    the update; a draft that has an expiry submits it unchanged. *)
Theorem premium_without_expiry_gets_30_days :
  forall (toISOString : Z -> string) (now : Z) (r : reply unit)
         (st : State) (e : User.t),
    editingUser st = Some e ->
    User.subscription_tier e = "premium" ->
    (noExpiry e ->
     requests (updateUser toISOString now r) st
     = [Backend
          (UpdateProfile (User.id e)
             (mkProfilePatch (User.full_name e) "premium"
                (Some (toISOString (now + 30 * 24 * 60 * 60 * 1000)%Z))))])
    /\ (forall x,
          User.subscription_end e = Some x -> x <> "" ->
          requests (updateUser toISOString now r) st
          = [Backend
               (UpdateProfile (User.id e)
                  (mkProfilePatch (User.full_name e) "premium" (Some x)))]).
Proof.
  intros toISOString now r st e E T.
  rewrite (updateUser_requests _ _ _ _ _ E).
  unfold subscriptionEnd. rewrite T. cbn [Js.eqb String.eqb Ascii.eqb Bool.eqb].
  split.
  - intros [H|H]; rewrite H; reflexivity.
  - intros x H Hx. rewrite H. destruct x; [congruence | reflexivity].
Qed.

Lemma premium_without_expiry_gets_30_days_witness :
  editingUser (editing bobPremium) = Some bobPremium
  /\ User.subscription_tier bobPremium = "premium"
  /\ noExpiry bobPremium
  /\ requests (updateUser stamp 1000 (Err "timeout")) (editing bobPremium)
     = [Backend
          (UpdateProfile "u2"
             (mkProfilePatch "Robert" "premium"
                (Some (stamp (1000 + 30 * 24 * 60 * 60 * 1000)%Z))))]
  /\ requests (updateUser stamp 1000 (Ok tt)) (editing carolPremium)
     = [Backend
          (UpdateProfile "u3" (mkProfilePatch "Carol" "premium" (Some "2031-06-30")))].
Proof.
  split; [reflexivity|]. split; [reflexivity|]. split; [left; reflexivity|].
  split.
  - apply (proj1 (premium_without_expiry_gets_30_days stamp 1000 (Err "timeout")
                    (editing bobPremium) bobPremium eq_refl eq_refl)).
    left; reflexivity.
  - apply (proj2 (premium_without_expiry_gets_30_days stamp 1000 (Ok tt)
                    (editing carolPremium) carolPremium eq_refl eq_refl)
             "2031-06-30").
    + reflexivity.
    + discriminate.
Defined.


(** C5. An account edit whose draft has tier free submits a null end date,
    whatever end date the draft or the cache held; and once the server has
    accepted the edit, every cached record with the draft's id has tier
    free and a null end date. *)
Theorem free_tier_clears_expiry :
  forall (toISOString : Z -> string) (now : Z) (st : State) (e : User.t),
    editingUser st = Some e ->
    User.subscription_tier e = "free" ->
    (forall r,
        requests (updateUser toISOString now r) st
        = [Backend
             (UpdateProfile (User.id e)
                (mkProfilePatch (User.full_name e) "free" None))])
    /\ (forall d u,
          In u (users (updateUser toISOString now (Ok d) st)) ->
          User.id u = User.id e ->
          User.subscription_end u = None /\ User.subscription_tier u = "free")
    /\ (forall d i u,
          nth_error (users st) i = Some u ->
          User.id u = User.id e ->
          exists u',
            nth_error (users (updateUser toISOString now (Ok d) st)) i = Some u'
            /\ User.subscription_end u' = None).
Proof.
  intros toISOString now st e E T.
  assert (S : subscriptionEnd toISOString now e = None).
  { unfold subscriptionEnd. rewrite T. reflexivity. }
  split; [|split].
  - intros r. rewrite (updateUser_requests _ _ _ _ _ E), S, T. reflexivity.
  - intros d u Hin Hid. rewrite (updateUser_ok_users _ _ _ _ _ E), S in Hin.
    apply in_map_iff in Hin as (u0 & Hu & _).
    destruct (Js.eqb (User.id u0) (User.id e)) eqn:Q.
    + subst u. split; [reflexivity | exact T].
    + subst u. apply js_eqb_neq in Q. contradiction.
  - intros d i u Hu Hid.
    rewrite (updateUser_ok_users _ _ _ _ _ E), S.
    erewrite map_nth_error by exact Hu.
    apply js_eqb_eq in Hid. rewrite Hid. eexists; split; reflexivity.
Qed.

Lemma free_tier_clears_expiry_witness :
  editingUser (editing aliceFree) = Some aliceFree
  /\ User.subscription_tier aliceFree = "free"
  /\ requests (updateUser stamp 1000 Throw) (editing aliceFree)
     = [Backend (UpdateProfile "u1" (mkProfilePatch "Alice" "free" None))]
  /\ exists u',
       nth_error (users (updateUser stamp 1000 (Ok tt) (editing aliceFree))) 0
       = Some u'
       /\ User.subscription_end u' = None.
Proof.
  split; [reflexivity|]. split; [reflexivity|].
  destruct (free_tier_clears_expiry stamp 1000 (editing aliceFree) aliceFree
              eq_refl eq_refl) as (Q & _ & R).
  split.
  - exact (Q Throw).
  - exact (R tt 0%nat alice eq_refl eq_refl).
Defined.


(** ** The session check *)

Lemma fetchData_frame ru rb st :
  adminSession (fetchData ru rb st) = adminSession st
  /\ localStorage (fetchData ru rb st) = localStorage st.
Proof.
  unfold fetchData, fetchUsers, fetchBlogs.
  destruct ru as [[l|]|m|], rb as [[l'|]|m'|]; split; reflexivity.
Qed.

Lemma fetchData_quiet ru rb st e :
  In e (effects (fetchData ru rb) st) ->
  (forall path, e <> Navigate path) /\ (forall key, e <> RemoveItem key).
Proof.
  unfold fetchData, fetchUsers, fetchBlogs.
  destruct ru as [[l|]|m|], rb as [[l'|]|m'|]; run_effects;
    cbn [In]; intros H; split; intros x;
    repeat (destruct H as [H|H]; [subst e; discriminate|]); contradiction.
Qed.

Lemma sessionCheck_absent JSON_parse now ru rb st :
  localStorage st = None ->
  turnsAway (sessionCheck JSON_parse now ru rb) st.
Proof.
  intros E. unfold turnsAway, effects, sessionCheck. rewrite E.
  run_effects. repeat split; auto.
Qed.

Lemma sessionCheck_empty JSON_parse now ru rb st :
  localStorage st = Some "" ->
  turnsAway (sessionCheck JSON_parse now ru rb) st.
Proof.
  intros E. unfold turnsAway, effects, sessionCheck. rewrite E.
  cbn [Js.truthy negb]. run_effects. repeat split; auto.
Qed.

Lemma sessionCheck_unparseable JSON_parse now ru rb st raw :
  localStorage st = Some raw -> raw <> "" ->
  JSON_parse raw = None ->
  invalidates (sessionCheck JSON_parse now ru rb) st.
Proof.
  intros E N P. unfold invalidates, effects, sessionCheck, invalidSession.
  rewrite E. destruct raw as [|c r]; [congruence|].
  cbn [Js.truthy negb]. rewrite P.
  run_effects. repeat split; auto.
Qed.

Lemma sessionCheck_expired JSON_parse now ru rb st raw s :
  localStorage st = Some raw -> raw <> "" ->
  JSON_parse raw = Some (JSession s) ->
  (now - AdminSession.loginTime s > 24 * 60 * 60 * 1000)%Z ->
  evicts (sessionCheck JSON_parse now ru rb) st.
Proof.
  intros E N P T. unfold evicts, effects, sessionCheck.
  rewrite E. destruct raw as [|c r]; [congruence|].
  cbn [Js.truthy negb]. rewrite P.
  replace (now - AdminSession.loginTime s >? 24 * 60 * 60 * 1000)%Z with true
    by (rewrite Z.gtb_ltb; symmetry; apply Z.ltb_lt; lia).
  run_effects. repeat split; auto.
Qed.

Lemma sessionCheck_fresh JSON_parse now ru rb st raw s :
  localStorage st = Some raw -> raw <> "" ->
  JSON_parse raw = Some (JSession s) ->
  (now - AdminSession.loginTime s <= 24 * 60 * 60 * 1000)%Z ->
  admits s (sessionCheck JSON_parse now ru rb) st.
Proof.
  intros E N P T.
  assert (Q : sessionCheck JSON_parse now ru rb st
              = fetchData ru rb (setAdminSession (Some s) st)).
  { unfold sessionCheck. rewrite E. destruct raw as [|c r]; [congruence|].
    cbn [Js.truthy negb]. rewrite P.
    replace (now - AdminSession.loginTime s >? 24 * 60 * 60 * 1000)%Z with false
      by (rewrite Z.gtb_ltb; symmetry; apply Z.ltb_ge; lia).
    reflexivity. }
  unfold admits, effects. rewrite Q.
  destruct (fetchData_frame ru rb (setAdminSession (Some s) st)) as [A L].
  rewrite A, L. repeat split; auto;
    apply (fetchData_quiet ru rb (setAdminSession (Some s) st) e H).
Qed.

(** C2. With a token stored that parses to a session, the check admits the
    session exactly when [now - loginTime] is at most 24 hours, and when it
    is more it deletes the token and sends the visitor to the login page;
    with no token stored it sends the visitor to the login page and deletes
    nothing.  ([JSON.parse] rejects the empty text.) *)
Theorem sessionCheck_24_hours :
  forall (JSON_parse : string -> option JsonValue) (now : Z)
         (ru : reply (option (list User.t))) (rb : reply (option (list Blog.t)))
         (st : State),
    JSON_parse "" = None ->
    let check := sessionCheck JSON_parse now ru rb in
    (forall raw s,
        localStorage st = Some raw ->
        JSON_parse raw = Some (JSession s) ->
        (admits s check st
         <-> (now - AdminSession.loginTime s <= 24 * 60 * 60 * 1000)%Z)
        /\ ((now - AdminSession.loginTime s > 24 * 60 * 60 * 1000)%Z ->
            evicts check st))
    /\ (localStorage st = None -> turnsAway check st).
Proof.
  intros JSON_parse now ru rb st Hempty check. subst check. split.
  - intros raw s E P.
    assert (N : raw <> "") by (intros ->; congruence).
    split; [split|].
    + intros (_ & _ & Q).
      destruct (Z_le_gt_dec (now - AdminSession.loginTime s) (24 * 60 * 60 * 1000))
        as [Hle|Hgt]; [exact Hle|exfalso].
      destruct (sessionCheck_expired _ _ ru rb _ _ _ E N P Hgt) as (T & _).
      rewrite T in Q.
      destruct (Q (Navigate "/admin")) as [Q1 _]; [right; left; reflexivity|].
      apply (Q1 "/admin"). reflexivity.
    + intros Hle. eapply sessionCheck_fresh; eassumption.
    + intros Hgt. eapply sessionCheck_expired; eassumption.
  - intros E. apply sessionCheck_absent. exact E.
Qed.

Lemma sessionCheck_24_hours_witness :
  sampleParse "" = None
  /\ sampleParse sampleToken = Some (JSession sampleSession)
  /\ admits sampleSession
       (sessionCheck sampleParse 86401000 (Ok None) (Ok None))
       (initial (Some sampleToken))
  /\ evicts
       (sessionCheck sampleParse 86401001 (Ok None) (Ok None))
       (initial (Some sampleToken))
  /\ turnsAway
       (sessionCheck sampleParse 86401001 (Ok None) (Ok None))
       (initial None).
Proof.
  split; [reflexivity|]. split; [reflexivity|]. split; [|split].
  - destruct (sessionCheck_24_hours sampleParse 86401000 (Ok None) (Ok None)
                (initial (Some sampleToken)) eq_refl) as [H _].
    destruct (H sampleToken sampleSession eq_refl eq_refl) as [[_ A] _].
    apply A. simpl. lia.
  - destruct (sessionCheck_24_hours sampleParse 86401001 (Ok None) (Ok None)
                (initial (Some sampleToken)) eq_refl) as [H _].
    destruct (H sampleToken sampleSession eq_refl eq_refl) as [_ A].
    apply A. simpl. lia.
  - destruct (sessionCheck_24_hours sampleParse 86401001 (Ok None) (Ok None)
                (initial None) eq_refl) as [_ H].
    apply H. reflexivity.
Defined.


(** C10 (as amended). A stored token that is not the empty string and that
    [JSON.parse] rejects is deleted and the visitor is sent to the login
    page, with the failure logged to the console and no session admitted; a
    stored empty string is treated as no token at all: the visitor is sent
    to the login page and the entry is left in storage. *)
Theorem unparseable_token_evicted :
  forall (JSON_parse : string -> option JsonValue) (now : Z)
         (ru : reply (option (list User.t))) (rb : reply (option (list Blog.t)))
         (st : State) (raw : string),
    localStorage st = Some raw ->
    JSON_parse raw = None ->
    let check := sessionCheck JSON_parse now ru rb in
    (raw <> "" -> invalidates check st)
    /\ (raw = "" -> turnsAway check st).
Proof.
  intros JSON_parse now ru rb st raw E P check. subst check. split.
  - intros N. eapply sessionCheck_unparseable; eassumption.
  - intros ->. apply sessionCheck_empty. exact E.
Qed.

Lemma unparseable_token_evicted_witness :
  sampleParse "not json" = None
  /\ invalidates
       (sessionCheck sampleParse 5000 (Ok None) (Ok None))
       (initial (Some "not json"))
  /\ turnsAway
       (sessionCheck sampleParse 5000 (Ok None) (Ok None))
       (initial (Some "")).
Proof.
  split; [reflexivity|]. split.
  - apply (proj1 (unparseable_token_evicted sampleParse 5000 (Ok None) (Ok None)
                    (initial (Some "not json")) "not json" eq_refl eq_refl)).
    discriminate.
  - apply (proj2 (unparseable_token_evicted sampleParse 5000 (Ok None) (Ok None)
                    (initial (Some "")) "" eq_refl eq_refl)).
    reflexivity.
Defined.

(** C10 as stated fails on the empty string: it is a stored value that
    [JSON.parse] rejects, yet the check leaves it in storage. *)
Lemma empty_token_left_in_storage :
  let st := initial (Some "") in
  let check := sessionCheck sampleParse 5000 (Ok None) (Ok None) in
  localStorage st = Some ""
  /\ sampleParse "" = None
  /\ localStorage (check st) = Some ""
  /\ ~ (localStorage (check st) = None
        /\ In (Navigate "/admin") (effects check st)).
Proof.
  repeat split. intros [H _]. discriminate H.
Qed.


(** ** Deleting an account *)

Lemma deleteUser_users d ra id st :
  users (deleteUser true (Ok d) ra id st)
  = filter (fun user => negb (Js.eqb (User.id user) id)) (users st).
Proof. unfold deleteUser. destruct ra; reflexivity. Qed.

(** Once the profile row is deleted the account leaves the cached list and
    success is reported, whatever becomes of the identity deletion; the
    console warning appears only when that call rejects. *)
Lemma deleteUser_effects d ra id st :
  effects (deleteUser true (Ok d) ra id) st
  = [Console Log "Deleting user:"; Backend (DeleteProfile id);
     Backend (AuthAdminDeleteUser id)]
    ++ match ra with
       | Throw => [Console Warn "Auth delete failed, but profile was deleted:"]
       | _ => []
       end
    ++ [Console Log "User deleted successfully";
        ToastSuccess "User deleted successfully"].
Proof.
  unfold effects, deleteUser. cbn [negb].
  destruct ra as [d'|m|]; run_effects; reflexivity.
Qed.

Lemma deleteUser_removes_locally d ra id st u :
  In u (users (deleteUser true (Ok d) ra id st))
  <-> In u (users st) /\ User.id u <> id.
Proof.
  rewrite deleteUser_users, filter_In, negb_true_iff, js_eqb_neq. reflexivity.
Qed.

(** C6 (where the code departs from it). Bob's profile row is deleted and
    the identity service answers the follow-up deletion with an error
    reply: Bob leaves the cached list and success is reported, as claimed,
    but the identity failure is not logged anywhere; the console warning is
    written only when the call rejects. *)
Theorem deleteUser_identity_error_unlogged :
  let run := deleteUser true (Ok tt) (Err "User not allowed") "u2" in
  effects run dashboard
  = [Console Log "Deleting user:"; Backend (DeleteProfile "u2");
     Backend (AuthAdminDeleteUser "u2");
     Console Log "User deleted successfully";
     ToastSuccess "User deleted successfully"]
  /\ users (run dashboard) = [alice; carol]
  /\ (forall message, ~ In (Console Warn message) (effects run dashboard))
  /\ In (Console Warn "Auth delete failed, but profile was deleted:")
       (effects (deleteUser true (Ok tt) Throw "u2") dashboard).
Proof.
  cbv zeta. rewrite !deleteUser_effects, deleteUser_users.
  split; [reflexivity|]. split; [reflexivity|]. split.
  - intros message H. cbn in H.
    repeat (destruct H as [H|H]; [discriminate H|]). exact H.
  - cbn. tauto.
Qed.

(** ** Editing a post *)

Lemma updateBlog_valid_run r st b :
  editingBlog st = Some b ->
  blank (Blog.title b) = false ->
  blank (Blog.content b) = false ->
  updateBlog r st
  = match r with
    | Err message =>
        (console Error "Blog update error:" ;;
         toast_error ("Failed to update blog: " ++ message))
          ((console Log "Updating blog:" ;;
            request (UpdateBlog (Blog.id b) (blogPatch b))) st)
    | Throw =>
        (console Error "Error updating blog:" ;;
         toast_error "Failed to update blog")
          ((console Log "Updating blog:" ;;
            request (UpdateBlog (Blog.id b) (blogPatch b))) st)
    | Ok data =>
        (console Log "Blog updated successfully:" ;;
         setBlogs
           (map (fun blog =>
                   if Js.eqb (Blog.id blog) (Blog.id b) then data else blog)
                (blogs st)) ;;
         setEditingBlog None ;;
         toast_success "Blog updated successfully")
          ((console Log "Updating blog:" ;;
            request (UpdateBlog (Blog.id b) (blogPatch b))) st)
    end.
Proof.
  intros E Ht Hc. apply trim_truthy_iff in Ht, Hc.
  unfold updateBlog, blogDraftInvalid. rewrite E, Ht, Hc. cbn [orb].
  destruct r; reflexivity.
Qed.

(** X1. After a successful post edit every cached post carrying the
    draft's id is, at its position, the row the server returned (not the
    draft); the other posts and the list length are untouched, the accounts
    are untouched, the dialog is closed, and the only backend call is the
    one update. *)
Theorem updateBlog_replaces_with_server_row :
  forall (data : Blog.t) (st : State) (b : Blog.t),
    editingBlog st = Some b ->
    blank (Blog.title b) = false ->
    blank (Blog.content b) = false ->
    let st' := updateBlog (Ok data) st in
    List.length (blogs st') = List.length (blogs st)
    /\ (forall i x,
          nth_error (blogs st) i = Some x ->
          (Blog.id x = Blog.id b -> nth_error (blogs st') i = Some data)
          /\ (Blog.id x <> Blog.id b -> nth_error (blogs st') i = Some x))
    /\ editingBlog st' = None
    /\ users st' = users st
    /\ requests (updateBlog (Ok data)) st
       = [Backend (UpdateBlog (Blog.id b) (blogPatch b))]
    /\ successToasts (effects (updateBlog (Ok data)) st)
       = ["Blog updated successfully"].
Proof.
  intros data st b E Ht Hc st'. subst st'.
  unfold requests, effects.
  rewrite (updateBlog_valid_run _ _ _ E Ht Hc).
  split; [eval_ops; apply length_map|].
  split; [|split; [reflexivity|split; [reflexivity|]]].
  - intros i x Hx. eval_ops. split; intros Hid;
      erewrite map_nth_error by exact Hx;
      [apply js_eqb_eq in Hid | apply js_eqb_neq in Hid];
      rewrite Hid; reflexivity.
  - split; run_effects; reflexivity.
Qed.

Lemma updateBlog_replaces_with_server_row_witness :
  editingBlog (setEditingBlog (Some notes) dashboard) = Some notes
  /\ blank (Blog.title notes) = false
  /\ blank (Blog.content notes) = false
  /\ (let st' := updateBlog (Ok notesSaved) (setEditingBlog (Some notes) dashboard) in
      nth_error (blogs st') 1 = Some notesSaved
      /\ nth_error (blogs st') 0 = Some hello
      /\ editingBlog st' = None).
Proof.
  split; [reflexivity|]. split; [reflexivity|]. split; [reflexivity|].
  destruct (updateBlog_replaces_with_server_row notesSaved
              (setEditingBlog (Some notes) dashboard) notes
              eq_refl eq_refl eq_refl) as (_ & R & C & _).
  split; [|split].
  - exact (proj1 (R 1%nat notes eq_refl) eq_refl).
  - refine (proj2 (R 0%nat hello eq_refl) _). discriminate.
  - exact C.
Defined.

(** X2. A post edit that the backend rejects, by an error reply or by a
    rejected call, leaves the cached posts as they were and the draft open
    in the dialog; it raises exactly one error toast and no success
    toast, after exactly one update request. *)
Theorem updateBlog_failure_keeps_draft :
  forall (r : reply Blog.t) (st : State) (b : Blog.t),
    editingBlog st = Some b ->
    blank (Blog.title b) = false ->
    blank (Blog.content b) = false ->
    (forall d, r <> Ok d) ->
    let st' := updateBlog r st in
    blogs st' = blogs st
    /\ editingBlog st' = Some b
    /\ requests (updateBlog r) st
       = [Backend (UpdateBlog (Blog.id b) (blogPatch b))]
    /\ (exists m, errorToasts (effects (updateBlog r) st) = [m])
    /\ successToasts (effects (updateBlog r) st) = [].
Proof.
  intros r st b E Ht Hc Hr st'. subst st'.
  unfold requests, effects.
  rewrite (updateBlog_valid_run _ _ _ E Ht Hc).
  destruct r as [d|m|]; [destruct (Hr d eq_refl)| |];
    (split; [reflexivity|]); (split; [exact E|]);
    run_effects; (split; [reflexivity|]); (split; [eexists|]); reflexivity.
Qed.

Lemma updateBlog_failure_keeps_draft_witness :
  editingBlog (setEditingBlog (Some notes) dashboard) = Some notes
  /\ blank (Blog.title notes) = false
  /\ blank (Blog.content notes) = false
  /\ (let st' := updateBlog (Err "row not found") (setEditingBlog (Some notes) dashboard) in
      blogs st' = [hello; notes] /\ editingBlog st' = Some notes).
Proof.
  split; [reflexivity|]. split; [reflexivity|]. split; [reflexivity|].
  assert (N : forall d : Blog.t, Err "row not found" <> Ok d) by discriminate.
  destruct (updateBlog_failure_keeps_draft (Err "row not found")
              (setEditingBlog (Some notes) dashboard) notes
              eq_refl eq_refl eq_refl N) as (B & D & _).
  split; [exact B | exact D].
Defined.

(** ** Failed account edits; deleting accounts and posts *)

(** X3. An account edit that the backend rejects, by an error reply or by
    a rejected call, leaves the cached accounts as they were and the draft
    open in the dialog, and raises exactly one error toast and no success
    toast; with no draft open, saving does nothing at all. *)
Theorem updateUser_failure_keeps_draft :
  forall (toISOString : Z -> string) (now : Z) (r : reply unit) (st : State),
    (forall e,
        editingUser st = Some e ->
        (forall d, r <> Ok d) ->
        let st' := updateUser toISOString now r st in
        users st' = users st
        /\ editingUser st' = Some e
        /\ (exists m, errorToasts (effects (updateUser toISOString now r) st) = [m])
        /\ successToasts (effects (updateUser toISOString now r) st) = [])
    /\ (editingUser st = None -> updateUser toISOString now r st = st).
Proof.
  intros toISOString now r st. split.
  - intros e E Hr st'. subst st'. unfold effects, updateUser. rewrite E.
    cbv beta zeta.
    destruct r as [d|m|]; [destruct (Hr d eq_refl)| |];
      (split; [reflexivity|]); (split; [exact E|]);
      run_effects; (split; [eexists|]); reflexivity.
  - intros E. unfold updateUser. rewrite E. reflexivity.
Qed.

Lemma updateUser_failure_keeps_draft_witness :
  editingUser (editing bobPremium) = Some bobPremium
  /\ (let st' := updateUser stamp 1000 (Err "permission denied") (editing bobPremium) in
      users st' = [alice; bob; carol] /\ editingUser st' = Some bobPremium)
  /\ updateUser stamp 1000 (Ok tt) dashboard = dashboard.
Proof.
  split; [reflexivity|].
  assert (N : forall d : unit, Err "permission denied" <> Ok d) by discriminate.
  split.
  - destruct (proj1 (updateUser_failure_keeps_draft stamp 1000
                       (Err "permission denied") (editing bobPremium))
                bobPremium eq_refl N) as (U & D & _).
    split; [exact U | exact D].
  - apply (proj2 (updateUser_failure_keeps_draft stamp 1000 (Ok tt) dashboard)).
    reflexivity.
Defined.

(** X4. When the profile delete fails, by an error reply or by a rejected
    call, [deleteUser] stops there: the identity service is never asked to
    delete the account, the cached accounts are as they were, and exactly
    one error toast and no success toast is raised.  When the confirm
    dialog is declined nothing happens at all. *)
Theorem deleteUser_profile_failure_stops :
  forall (rp ra : reply unit) (id : string) (st : State),
    ((forall d, rp <> Ok d) ->
     let run := deleteUser true rp ra id in
     users (run st) = users st
     /\ requests run st = [Backend (DeleteProfile id)]
     /\ (exists m, errorToasts (effects run st) = [m])
     /\ successToasts (effects run st) = [])
    /\ deleteUser false rp ra id st = st.
Proof.
  intros rp ra id st. split; [|reflexivity].
  intros Hr run. subst run. unfold requests, effects, deleteUser. cbn [negb].
  destruct rp as [d|m|]; [destruct (Hr d eq_refl)| |];
    (split; [reflexivity|]); run_effects;
    (split; [reflexivity|]); (split; [eexists|]); reflexivity.
Qed.

Lemma deleteUser_profile_failure_stops_witness :
  let run := deleteUser true (Err "violates foreign key") (Ok tt) "u2" in
  users (run dashboard) = [alice; bob; carol]
  /\ requests run dashboard = [Backend (DeleteProfile "u2")].
Proof.
  assert (N : forall d : unit, Err "violates foreign key" <> Ok d) by discriminate.
  destruct (proj1 (deleteUser_profile_failure_stops (Err "violates foreign key")
                     (Ok tt) "u2" dashboard) N) as (U & Q & _).
  split; [exact U | exact Q].
Defined.

Lemma deleteUser_requests d ra id st :
  requests (deleteUser true (Ok d) ra id) st
  = [Backend (DeleteProfile id); Backend (AuthAdminDeleteUser id)].
Proof.
  unfold requests. rewrite deleteUser_effects. destruct ra; reflexivity.
Qed.

(** X5. Once the profile delete has succeeded, whatever the identity
    service then answers (success, an error reply, or a rejected call), the
    cached accounts are exactly the former ones whose id differs from the
    deleted id, the posts are untouched, both deletions were requested in
    that order, and the user sees the success toast and no error toast. *)
Theorem deleteUser_success_whatever_identity_answers :
  forall (d : unit) (ra : reply unit) (id : string) (st : State),
    let run := deleteUser true (Ok d) ra id in
    (forall u, In u (users (run st)) <-> In u (users st) /\ User.id u <> id)
    /\ blogs (run st) = blogs st
    /\ requests run st
       = [Backend (DeleteProfile id); Backend (AuthAdminDeleteUser id)]
    /\ errorToasts (effects run st) = []
    /\ successToasts (effects run st) = ["User deleted successfully"].
Proof.
  intros d ra id st run. subst run.
  split; [intros u; apply deleteUser_removes_locally|].
  split; [unfold deleteUser; destruct ra; reflexivity|].
  split; [apply deleteUser_requests|].
  rewrite deleteUser_effects. destruct ra; split; reflexivity.
Qed.

(** ** Accounts with unique ids *)

Lemma filter_other_ids_absent (id : string) (l : list User.t) :
  ~ In id (userIds l) ->
  filter (fun user => negb (Js.eqb (User.id user) id)) l = l.
Proof.
  induction l as [|a l IH]; simpl; intros H; [reflexivity|].
  destruct (Js.eqb (User.id a) id) eqn:Q.
  - apply js_eqb_eq in Q. exfalso. apply H. left. exact Q.
  - simpl. f_equal. apply IH. intros Hin. apply H. right. exact Hin.
Qed.

Lemma filter_other_ids_length (id : string) (l : list User.t) :
  NoDup (userIds l) -> In id (userIds l) ->
  S (List.length (filter (fun user => negb (Js.eqb (User.id user) id)) l))
  = List.length l.
Proof.
  induction l as [|a l IH]; simpl; intros N H; [contradiction|].
  inversion N as [|x xs Hnot Hnd]; subst.
  destruct (Js.eqb (User.id a) id) eqn:Q; simpl.
  - apply js_eqb_eq in Q. subst id.
    rewrite filter_other_ids_absent by exact Hnot. reflexivity.
  - apply js_eqb_neq in Q. destruct H as [H|H]; [contradiction|].
    f_equal. apply IH; assumption.
Qed.

Lemma filter_ids_incl (f : User.t -> bool) (l : list User.t) (x : string) :
  In x (userIds (filter f l)) -> In x (userIds l).
Proof.
  unfold userIds. rewrite !in_map_iff. intros (u & E & H).
  apply filter_In in H as [H _]. exists u. split; assumption.
Qed.

Lemma filter_ids_NoDup (f : User.t -> bool) (l : list User.t) :
  NoDup (userIds l) -> NoDup (userIds (filter f l)).
Proof.
  induction l as [|a l IH]; simpl; intros N; [constructor|].
  inversion N as [|x xs Hnot Hnd]; subst.
  destruct (f a); simpl; [|apply IH; exact Hnd].
  constructor; [|apply IH; exact Hnd].
  intros H. apply Hnot. eapply filter_ids_incl. exact H.
Qed.

(** X6. In a cache whose ids are pairwise distinct, a successful delete of
    an id that is present shortens the list by exactly one account and the
    ids stay distinct; deleting an id that is not cached leaves the list as
    it is. *)
Theorem deleteUser_unique_id :
  forall (d : unit) (ra : reply unit) (id : string) (st : State),
    NoDup (userIds (users st)) ->
    let st' := deleteUser true (Ok d) ra id st in
    NoDup (userIds (users st'))
    /\ (In id (userIds (users st)) ->
        S (List.length (users st')) = List.length (users st))
    /\ (~ In id (userIds (users st)) -> users st' = users st).
Proof.
  intros d ra id st N st'. subst st'. rewrite deleteUser_users.
  split; [apply filter_ids_NoDup; exact N|]. split.
  - intros H. apply filter_other_ids_length; assumption.
  - intros H. apply filter_other_ids_absent; exact H.
Qed.

Lemma deleteUser_unique_id_witness :
  NoDup (userIds (users dashboard))
  /\ S (List.length (users (deleteUser true (Ok tt) Throw "u2" dashboard))) = 3%nat
  /\ users (deleteUser true (Ok tt) Throw "u9" dashboard) = [alice; bob; carol].
Proof.
  assert (N : NoDup (userIds (users dashboard))).
  { repeat constructor; simpl; intuition discriminate. }
  split; [exact N|]. split.
  - apply (proj1 (proj2 (deleteUser_unique_id tt Throw "u2" dashboard N))).
    simpl. tauto.
  - apply (proj2 (proj2 (deleteUser_unique_id tt Throw "u9" dashboard N))).
    simpl. intuition discriminate.
Defined.

Lemma replace_by_id_ids (e r : User.t) (l : list User.t) :
  User.id r = User.id e ->
  userIds (map (fun user => if Js.eqb (User.id user) (User.id e) then r else user) l)
  = userIds l.
Proof.
  intros Hr. unfold userIds. rewrite map_map. apply map_ext_in.
  intros a _. destruct (Js.eqb (User.id a) (User.id e)) eqn:Q; [|reflexivity].
  apply js_eqb_eq in Q. congruence.
Qed.

(** X7. Saving an account edit never changes which accounts are cached:
    for every reply of the backend the id column of the cache, and hence
    the number of accounts shown, is the same before and after. *)
Theorem updateUser_preserves_ids :
  forall (toISOString : Z -> string) (now : Z) (r : reply unit) (st : State),
    let st' := updateUser toISOString now r st in
    userIds (users st') = userIds (users st)
    /\ totalUsers (users st') = totalUsers (users st).
Proof.
  intros toISOString now r st st'. subst st'.
  assert (H : userIds (users (updateUser toISOString now r st)) = userIds (users st)).
  { destruct (editingUser st) as [e|] eqn:E.
    - destruct r as [d|m|].
      + rewrite (updateUser_ok_users _ _ _ _ _ E).
        apply replace_by_id_ids. reflexivity.
      + unfold updateUser. rewrite E. reflexivity.
      + unfold updateUser. rewrite E. reflexivity.
    - unfold updateUser. rewrite E. reflexivity. }
  split; [exact H|].
  unfold totalUsers. f_equal.
  rewrite <- (length_map User.id (users st)).
  rewrite <- (length_map User.id (users (updateUser toISOString now r st))).
  unfold userIds in H. rewrite H. reflexivity.
Qed.

Lemma unique_id_same_row (l : list User.t) (u v : User.t) :
  NoDup (userIds l) -> In u l -> In v l -> User.id u = User.id v -> u = v.
Proof.
  induction l as [|a l IH]; simpl; intros N Hu Hv E; [contradiction|].
  inversion N as [|x xs Hnot Hnd]; subst.
  destruct Hu as [Hu|Hu], Hv as [Hv|Hv]; subst.
  - reflexivity.
  - exfalso. apply Hnot. rewrite E. apply in_map. exact Hv.
  - exfalso. apply Hnot. rewrite <- E. apply in_map. exact Hu.
  - apply IH; assumption.
Qed.

Lemma replace_by_self (l : list User.t) (u : User.t) :
  NoDup (userIds l) -> In u l ->
  map (fun user => if Js.eqb (User.id user) (User.id u) then u else user) l = l.
Proof.
  intros N Hu. rewrite <- (map_id l) at 2. apply map_ext_in.
  intros a Ha. destruct (Js.eqb (User.id a) (User.id u)) eqn:Q; [|reflexivity].
  apply js_eqb_eq in Q. symmetry. eapply unique_id_same_row; eassumption.
Qed.

Lemma subscriptionEnd_settled toISOString now u :
  settled u -> subscriptionEnd toISOString now u = User.subscription_end u.
Proof.
  unfold subscriptionEnd. intros [[T (e & E & Ne)]|[T E]].
  - rewrite T, E. cbn. destruct e; [congruence | reflexivity].
  - apply js_eqb_neq in T. rewrite T, E. reflexivity.
Qed.

Lemma with_subscription_end_same (u : User.t) :
  User.with_subscription_end u (User.subscription_end u) = u.
Proof. destruct u; reflexivity. Qed.

(** X8. Opening a cached row in the edit dialog and saving it untouched
    is harmless when the row is settled (premium with an end date, or not
    premium and without one) and the cached ids are pairwise distinct: once
    the server accepts the update the cache is exactly what it was, and the
    update sent carries the row's own name, tier and end date. *)
Theorem untouched_save_changes_nothing :
  forall (toISOString : Z -> string) (now : Z) (d : unit) (st : State) (u : User.t),
    NoDup (userIds (users st)) ->
    In u (users st) ->
    settled u ->
    let save := openEditUser u ;; updateUser toISOString now (Ok d) in
    users (save st) = users st
    /\ editingUser (save st) = None
    /\ requests (updateUser toISOString now (Ok d)) (openEditUser u st)
       = [Backend
            (UpdateProfile (User.id u)
               (mkProfilePatch (User.full_name u) (User.subscription_tier u)
                  (User.subscription_end u)))].
Proof.
  intros toISOString now d st u N Hu S save. subst save. unfold andThen.
  assert (E : editingUser (openEditUser u st) = Some u) by reflexivity.
  split; [|split].
  - rewrite (updateUser_ok_users _ _ _ _ _ E).
    rewrite (subscriptionEnd_settled _ _ _ S), with_subscription_end_same.
    change (users (openEditUser u st)) with (users st).
    apply replace_by_self; assumption.
  - unfold updateUser. rewrite E. reflexivity.
  - rewrite (updateUser_requests _ _ _ _ _ E).
    rewrite (subscriptionEnd_settled _ _ _ S). reflexivity.
Qed.

Lemma untouched_save_changes_nothing_witness :
  NoDup (userIds (users dashboard))
  /\ In carol (users dashboard)
  /\ settled carol
  /\ users ((openEditUser carol ;; updateUser stamp 1000 (Ok tt)) dashboard)
     = [alice; bob; carol].
Proof.
  assert (N : NoDup (userIds (users dashboard))).
  { repeat constructor; simpl; intuition discriminate. }
  assert (I : In carol (users dashboard)) by (simpl; tauto).
  assert (S : settled carol).
  { left. split; [reflexivity|]. exists "2031-06-30". split; [reflexivity|discriminate]. }
  split; [exact N|]. split; [exact I|]. split; [exact S|].
  exact (proj1 (untouched_save_changes_nothing stamp 1000 tt dashboard carol N I S)).
Defined.

(** ** The figures *)

Lemma countPremium_bit (u : User.t) (l : list User.t) :
  Z.of_nat (countPremium (u :: l)) = (premiumBit u + Z.of_nat (countPremium l))%Z.
Proof.
  unfold premiumBit. simpl.
  destruct (string_dec (User.subscription_tier u) "premium"); lia.
Qed.

Lemma replace_by_id_absent (e r : User.t) (l : list User.t) :
  ~ In (User.id e) (userIds l) ->
  map (fun user => if Js.eqb (User.id user) (User.id e) then r else user) l = l.
Proof.
  intros H. rewrite <- (map_id l) at 2. apply map_ext_in.
  intros a Ha. destruct (Js.eqb (User.id a) (User.id e)) eqn:Q; [|reflexivity].
  apply js_eqb_eq in Q. exfalso. apply H. rewrite <- Q. apply in_map. exact Ha.
Qed.

Lemma countPremium_replace (e r u : User.t) (l : list User.t) :
  NoDup (userIds l) -> In u l -> User.id u = User.id e ->
  (Z.of_nat
     (countPremium
        (map (fun user => if Js.eqb (User.id user) (User.id e) then r else user) l))
   = Z.of_nat (countPremium l) + (premiumBit r - premiumBit u))%Z.
Proof.
  induction l as [|a l IH]; intros N Hu E; [contradiction|].
  inversion N as [|x xs Hnot Hnd]; subst.
  cbn [map]. destruct Hu as [Hu|Hu].
  - subst a. apply js_eqb_eq in E. rewrite E. apply js_eqb_eq in E.
    rewrite replace_by_id_absent by (rewrite <- E; exact Hnot).
    rewrite !countPremium_bit. lia.
  - assert (Q : Js.eqb (User.id a) (User.id e) = false).
    { apply js_eqb_neq. intros Q. apply Hnot. rewrite Q, <- E. apply in_map. exact Hu. }
    rewrite Q, !countPremium_bit, (IH Hnd Hu E). lia.
Qed.

(** X9. In a cache with pairwise distinct ids, a successful edit of a
    cached account moves the revenue figure by nine times the change of
    that account's premium status: up by 9 when a free account is saved as
    premium, down by 9 when a premium account is saved as free, not at all
    when the tier is kept. *)
Theorem revenue_follows_tier_change :
  forall (toISOString : Z -> string) (now : Z) (d : unit) (st : State)
         (e u : User.t),
    editingUser st = Some e ->
    NoDup (userIds (users st)) ->
    In u (users st) ->
    User.id u = User.id e ->
    totalRevenue (users (updateUser toISOString now (Ok d) st))
    = (totalRevenue (users st) + 9 * (premiumBit e - premiumBit u))%Z.
Proof.
  intros toISOString now d st e u E N Hu Hid.
  rewrite (updateUser_ok_users _ _ _ _ _ E).
  unfold totalRevenue. rewrite !premiumUsers_count.
  rewrite (countPremium_replace e _ u _ N Hu Hid).
  assert (B : premiumBit (User.with_subscription_end e (subscriptionEnd toISOString now e))
              = premiumBit e) by reflexivity.
  rewrite B. lia.
Qed.

Lemma revenue_follows_tier_change_witness :
  editingUser (editing bobPremium) = Some bobPremium
  /\ NoDup (userIds (users (editing bobPremium)))
  /\ In bob (users (editing bobPremium))
  /\ User.id bob = User.id bobPremium
  /\ totalRevenue (users (updateUser stamp 1000 (Ok tt) (editing bobPremium)))
     = (totalRevenue (users (editing bobPremium)) + 9 * (1 - 0))%Z.
Proof.
  assert (N : NoDup (userIds (users (editing bobPremium)))).
  { repeat constructor; simpl; intuition discriminate. }
  assert (I : In bob (users (editing bobPremium))) by (simpl; tauto).
  split; [reflexivity|]. split; [exact N|]. split; [exact I|]. split; [reflexivity|].
  exact (revenue_follows_tier_change stamp 1000 tt (editing bobPremium)
           bobPremium bob eq_refl N I eq_refl).
Defined.

Lemma countPremium_le_length (l : list User.t) :
  (countPremium l <= List.length l)%nat.
Proof.
  induction l as [|u l IH]; simpl; [lia|].
  destruct (string_dec (User.subscription_tier u) "premium"); lia.
Qed.

Lemma countPremium_filter_le (f : User.t -> bool) (l : list User.t) :
  (countPremium (filter f l) <= countPremium l)%nat.
Proof.
  induction l as [|u l IH]; simpl; [lia|].
  destruct (f u); simpl;
    destruct (string_dec (User.subscription_tier u) "premium"); lia.
Qed.

(** X10. The three figures are consistent: the premium count lies between
    zero and the number of accounts, the revenue is at most nine per
    account, and a successful account deletion never raises the number of
    accounts, the premium count or the revenue. *)
Theorem figures_bounded :
  forall (st : State),
    (0 <= premiumUsers (users st) <= totalUsers (users st))%Z
    /\ (0 <= totalRevenue (users st) <= 9 * totalUsers (users st))%Z
    /\ (forall d ra id,
          let st' := deleteUser true (Ok d) ra id st in
          (totalUsers (users st') <= totalUsers (users st))%Z
          /\ (premiumUsers (users st') <= premiumUsers (users st))%Z
          /\ (totalRevenue (users st') <= totalRevenue (users st))%Z).
Proof.
  intros st.
  pose proof (countPremium_le_length (users st)) as H.
  unfold totalRevenue. rewrite premiumUsers_count. unfold totalUsers.
  split; [lia|]. split; [lia|].
  intros d ra id. rewrite !deleteUser_users, !premiumUsers_count.
  pose proof (countPremium_filter_le
                (fun user => negb (Js.eqb (User.id user) id)) (users st)) as F.
  pose proof (filter_length_le
                (fun user => negb (Js.eqb (User.id user) id)) (users st)) as L.
  lia.
Qed.

(** ** Creating posts and accounts *)

(** X11. When a new post passes validation and the insert succeeds, the
    form is reset and the dialog closed, the backend was asked, in this
    order, for the current user, for the insert and for a fresh list of
    posts, and the cached posts are whatever that fresh list is: the
    inserted row itself is never added to the cache, so when the re-fetch
    fails the cache is the old one although the success toast was shown. *)
Theorem createBlog_success_refetches :
  forall (rg : reply unit) (row : Blog.t) (rf : reply (option (list Blog.t)))
         (st : State),
    blank (NewBlog.title (newBlog st)) = false ->
    blank (NewBlog.content (newBlog st)) = false ->
    rg <> Throw ->
    let run := createBlog rg (Ok row) rf in
    newBlog (run st) = NewBlog.empty
    /\ isCreateBlogOpen (run st) = false
    /\ requests run st
       = [Backend AuthGetUser; Backend (InsertBlog (blogData (newBlog st)));
          Backend SelectBlogs]
    /\ blogs (run st)
       = match rf with
         | Ok (Some rows) => rows
         | Ok None => []
         | _ => blogs st
         end
    /\ users (run st) = users st
    /\ successToasts (effects run st) = ["Blog created successfully"].
Proof.
  intros rg row rf st Ht Hc Hg run. subst run.
  apply trim_truthy_iff in Ht, Hc.
  unfold requests, effects, createBlog, fetchBlogs. cbv beta zeta.
  rewrite Ht, Hc. cbn [orb].
  destruct rg as [[]|m|]; try congruence;
    destruct rf as [[l|]|m''|];
    repeat (split; [reflexivity|]); run_effects;
    repeat (split; [reflexivity|]); reflexivity.
Qed.

Lemma createBlog_success_refetches_witness :
  blank (NewBlog.title draftPost) = false
  /\ blank (NewBlog.content draftPost) = false
  /\ (let run := createBlog (Ok tt) (Ok hello) (Err "offline") in
      newBlog (run (setNewBlog draftPost dashboard)) = NewBlog.empty
      /\ blogs (run (setNewBlog draftPost dashboard)) = [hello; notes]).
Proof.
  split; [reflexivity|]. split; [reflexivity|].
  assert (G : Ok tt <> @Throw unit) by discriminate.
  destruct (createBlog_success_refetches (Ok tt) hello (Err "offline")
              (setNewBlog draftPost dashboard) eq_refl eq_refl G)
    as (F & _ & _ & B & _).
  split; [exact F | exact B].
Defined.

(** X12. When a new post passes validation but is not created (the
    current-user call rejects, or the insert is answered with an error or
    rejects), the form keeps what was typed, the dialog stays as it was,
    the cached posts are untouched, the list is not fetched again, and
    exactly one error toast and no success toast is raised; when it is the
    current-user call that rejects, no insert is sent at all. *)
Theorem createBlog_failure_keeps_form :
  forall (rg : reply unit) (ri : reply Blog.t) (rf : reply (option (list Blog.t)))
         (st : State),
    blank (NewBlog.title (newBlog st)) = false ->
    blank (NewBlog.content (newBlog st)) = false ->
    rg = Throw \/ (forall row, ri <> Ok row) ->
    let run := createBlog rg ri rf in
    newBlog (run st) = newBlog st
    /\ isCreateBlogOpen (run st) = isCreateBlogOpen st
    /\ blogs (run st) = blogs st
    /\ ~ In (Backend SelectBlogs) (requests run st)
    /\ (rg = Throw -> requests run st = [Backend AuthGetUser])
    /\ (exists m, errorToasts (effects run st) = [m])
    /\ successToasts (effects run st) = [].
Proof.
  intros rg ri rf st Ht Hc H run. subst run.
  apply trim_truthy_iff in Ht, Hc.
  unfold requests, effects, createBlog, fetchBlogs. cbv beta zeta.
  rewrite Ht, Hc. cbn [orb].
  destruct rg as [[]|m|]; destruct ri as [row|m'|];
    try (destruct H as [H|H]; [discriminate H | destruct (H row eq_refl)]);
    repeat (split; [reflexivity|]); run_effects;
    (split; [cbn; intuition discriminate|]);
    (split; [intros Q; first [discriminate Q | reflexivity]|]);
    (split; [eexists|]); reflexivity.
Qed.

Lemma createBlog_failure_keeps_form_witness :
  blank (NewBlog.title draftPost) = false
  /\ blank (NewBlog.content draftPost) = false
  /\ (let run := createBlog (Ok tt) (Err "duplicate key") (Ok None) in
      newBlog (run (setNewBlog draftPost dashboard)) = draftPost
      /\ blogs (run (setNewBlog draftPost dashboard)) = [hello; notes]).
Proof.
  split; [reflexivity|]. split; [reflexivity|].
  assert (N : Ok tt = @Throw unit
              \/ (forall row : Blog.t, Err "duplicate key" <> Ok row))
    by (right; discriminate).
  destruct (createBlog_failure_keeps_form (Ok tt) (Err "duplicate key") (Ok None)
              (setNewBlog draftPost dashboard) eq_refl eq_refl N)
    as (F & _ & B & _).
  split; [exact F | exact B].
Defined.

Lemma createUser_valid_run toISOString now r st :
  blank (NewUser.email (newUser st)) = false ->
  blank (NewUser.password (newUser st)) = false ->
  createUser toISOString now r st
  = let nu := newUser st in
    let st1 :=
      (console Log "Creating user:" ;;
       request (AuthSignUp (NewUser.email nu) (NewUser.password nu)
                  (NewUser.full_name nu))) st in
    match r with
    | Err message =>
        (console Error "Auth error:" ;;
         toast_error ("Failed to create user: " ++ message)) st1
    | Throw =>
        (console Error "Error creating user:" ;;
         toast_error "Failed to create user") st1
    | Ok user =>
        (setNewUser NewUser.empty ;;
         setIsCreateUserOpen false ;;
         toast_success "User created successfully! They will receive a confirmation email." ;;
         setTimeout RefreshUsers 1500)
          (match user with
           | Some uid =>
               if Js.eqb (NewUser.subscription_tier nu) "premium"
               then setTimeout
                      (PremiumUpgrade uid
                         (toISOString (now + 30 * 24 * 60 * 60 * 1000)%Z)) 1000
                      (console Log "User created in auth:" st1)
               else console Log "User created in auth:" st1
           | None => console Log "User created in auth:" st1
           end)
    end.
Proof.
  intros He Hp. apply trim_truthy_iff in He, Hp.
  unfold createUser. rewrite He, Hp. cbn [orb].
  destruct r as [[uid|]|m|]; reflexivity.
Qed.

(** X13. When a new account passes validation and the sign-up succeeds,
    the identity service was called once with the email, password and name
    exactly as typed, the form is reset and the dialog closed, the cached
    accounts are not touched, and a refresh is scheduled after 1500 ms;
    for a premium account with a created identity an upgrade is scheduled
    before it, after 1000 ms, carrying the rendering of the instant 30 days
    after the clock reading taken at sign-up; otherwise no upgrade is
    scheduled. *)
Theorem createUser_success_schedules :
  forall (toISOString : Z -> string) (now : Z) (user : option string) (st : State),
    blank (NewUser.email (newUser st)) = false ->
    blank (NewUser.password (newUser st)) = false ->
    let run := createUser toISOString now (Ok user) in
    requests run st
    = [Backend
         (AuthSignUp (NewUser.email (newUser st)) (NewUser.password (newUser st))
            (NewUser.full_name (newUser st)))]
    /\ newUser (run st) = NewUser.empty
    /\ isCreateUserOpen (run st) = false
    /\ users (run st) = users st
    /\ errorToasts (effects run st) = []
    /\ (forall uid,
          user = Some uid ->
          NewUser.subscription_tier (newUser st) = "premium" ->
          timers (effects run st)
          = [(PremiumUpgrade uid (toISOString (now + 30 * 24 * 60 * 60 * 1000)%Z),
              1000%Z);
             (RefreshUsers, 1500%Z)])
    /\ (user = None \/ NewUser.subscription_tier (newUser st) <> "premium" ->
        timers (effects run st) = [(RefreshUsers, 1500%Z)]).
Proof.
  intros toISOString now user st He Hp run. subst run.
  unfold requests, effects. rewrite (createUser_valid_run _ _ _ _ He Hp).
  cbv beta zeta.
  destruct user as [uid|];
    [destruct (Js.eqb (NewUser.subscription_tier (newUser st)) "premium") eqn:Q|];
    repeat (split; [reflexivity|]); run_effects;
    repeat (split; [reflexivity|]).
  - split; [intros u U T; injection U as ->; reflexivity|].
    apply js_eqb_eq in Q. intros [H|H]; [discriminate H | contradiction].
  - split; [|reflexivity].
    apply js_eqb_neq in Q. intros u U T. contradiction.
  - split; [|reflexivity]. intros u U. discriminate U.
Qed.

Lemma createUser_success_schedules_witness :
  let form := NewUser.mk "dave@example.com" "s3cret" "Dave" "premium" in
  blank (NewUser.email form) = false
  /\ blank (NewUser.password form) = false
  /\ timers (effects (createUser stamp 1000 (Ok (Some "u4"))) (setNewUser form dashboard))
     = [(PremiumUpgrade "u4" (stamp (1000 + 30 * 24 * 60 * 60 * 1000)%Z), 1000%Z);
        (RefreshUsers, 1500%Z)]
  /\ timers (effects (createUser stamp 1000 (Ok None)) (setNewUser form dashboard))
     = [(RefreshUsers, 1500%Z)].
Proof.
  intros form. split; [reflexivity|]. split; [reflexivity|].
  split.
  - destruct (createUser_success_schedules stamp 1000 (Some "u4")
                (setNewUser form dashboard) eq_refl eq_refl)
      as (_ & _ & _ & _ & _ & T & _).
    exact (T "u4" eq_refl eq_refl).
  - destruct (createUser_success_schedules stamp 1000 None
                (setNewUser form dashboard) eq_refl eq_refl)
      as (_ & _ & _ & _ & _ & _ & T).
    apply T. left. reflexivity.
Defined.

(** X14. When a new account passes validation but the sign-up fails, by an
    error reply or by a rejected call, the form keeps what was typed, the
    dialog stays as it was, the cached accounts are untouched, no timer is
    set (neither the upgrade nor the refresh), and exactly one error toast
    and no success toast is raised. *)
Theorem createUser_failure_keeps_form :
  forall (toISOString : Z -> string) (now : Z) (r : reply (option string))
         (st : State),
    blank (NewUser.email (newUser st)) = false ->
    blank (NewUser.password (newUser st)) = false ->
    (forall user, r <> Ok user) ->
    let run := createUser toISOString now r in
    newUser (run st) = newUser st
    /\ isCreateUserOpen (run st) = isCreateUserOpen st
    /\ users (run st) = users st
    /\ timers (effects run st) = []
    /\ (exists m, errorToasts (effects run st) = [m])
    /\ successToasts (effects run st) = [].
Proof.
  intros toISOString now r st He Hp Hr run. subst run.
  unfold effects. rewrite (createUser_valid_run _ _ _ _ He Hp).
  cbv beta zeta.
  destruct r as [user|m|]; [destruct (Hr user eq_refl)| |];
    repeat (split; [reflexivity|]); run_effects;
    (split; [reflexivity|]); (split; [eexists|]); reflexivity.
Qed.

Lemma createUser_failure_keeps_form_witness :
  let form := NewUser.mk "dave@example.com" "s3cret" "Dave" "premium" in
  blank (NewUser.email form) = false
  /\ blank (NewUser.password form) = false
  /\ (let run := createUser stamp 1000 (Err "User already registered") in
      newUser (run (setNewUser form dashboard)) = form
      /\ timers (effects run (setNewUser form dashboard)) = []).
Proof.
  intros form. split; [reflexivity|]. split; [reflexivity|].
  assert (N : forall user : option string, Err "User already registered" <> Ok user)
    by discriminate.
  destruct (createUser_failure_keeps_form stamp 1000 (Err "User already registered")
              (setNewUser form dashboard) eq_refl eq_refl N)
    as (F & _ & _ & T & _).
  split; [exact F | exact T].
Defined.

Lemma createUser_premium_timers toISOString now uid st :
  blank (NewUser.email (newUser st)) = false ->
  blank (NewUser.password (newUser st)) = false ->
  NewUser.subscription_tier (newUser st) = "premium" ->
  timers (effects (createUser toISOString now (Ok (Some uid))) st)
  = [(PremiumUpgrade uid (toISOString (now + 30 * 24 * 60 * 60 * 1000)%Z), 1000%Z);
     (RefreshUsers, 1500%Z)].
Proof.
  intros He Hp T. unfold effects. rewrite (createUser_valid_run _ _ _ _ He Hp).
  cbv beta zeta. apply js_eqb_eq in T. rewrite T.
  run_effects. reflexivity.
Qed.

(** X15. A premium sign-up followed through to the end: once the sign-up
    has succeeded and the two timers it set have fired, the backend has
    been asked, in this order, to sign the account up, to set its tier to
    premium with the end date computed at sign-up time (30 days after that
    clock reading, not after the moment the timer fires), and for a fresh
    list of accounts; the cache is that fresh list when it arrives and the
    old one otherwise.  The success toast has been shown in any case, also
    when the upgrade is then answered with an error, which adds an error
    toast; an upgrade call that rejects is silent. *)
Theorem premium_signup_end_to_end :
  forall (toISOString : Z -> string) (now : Z) (uid : string)
         (ru : reply (option (list User.t))) (rp : reply unit) (st : State),
    blank (NewUser.email (newUser st)) = false ->
    blank (NewUser.password (newUser st)) = false ->
    NewUser.subscription_tier (newUser st) = "premium" ->
    let signup := createUser toISOString now (Ok (Some uid)) in
    let later := fireTimers ru rp (timers (effects signup st)) in
    requests (signup ;; later) st
    = [Backend
         (AuthSignUp (NewUser.email (newUser st)) (NewUser.password (newUser st))
            (NewUser.full_name (newUser st)));
       Backend
         (UpdateSubscription uid "premium"
            (toISOString (now + 30 * 24 * 60 * 60 * 1000)%Z));
       Backend SelectProfiles]
    /\ users ((signup ;; later) st)
       = match ru with
         | Ok (Some rows) => rows
         | Ok None => []
         | _ => users st
         end
    /\ successToasts (effects (signup ;; later) st)
       = ["User created successfully! They will receive a confirmation email."]
    /\ errorToasts (effects (signup ;; later) st)
       = match rp with
         | Err m => [("User created but subscription update failed: " ++ m)%string]
         | _ => []
         end
         ++ match ru with
            | Ok _ => []
            | Err m => [("Failed to fetch users: " ++ m)%string]
            | Throw => ["Failed to fetch users"]
            end.
Proof.
  intros toISOString now uid ru rp st He Hp T signup later. subst signup later.
  rewrite (createUser_premium_timers _ _ _ _ He Hp T).
  unfold requests, effects, andThen. cbv beta.
  rewrite (createUser_valid_run _ _ _ _ He Hp).
  cbv beta zeta. apply js_eqb_eq in T. rewrite T.
  unfold fireTimers, runTask, premiumUpgrade, fetchUsers.
  cbn [fold_left fst].
  destruct rp as [d|m|], ru as [[rows|]|m'|];
    (split; [run_effects; reflexivity|]);
    (split; [reflexivity|]);
    split; run_effects; reflexivity.
Qed.

Lemma premium_signup_end_to_end_witness :
  let form := NewUser.mk "dave@example.com" "s3cret" "Dave" "premium" in
  let st := setNewUser form dashboard in
  let signup := createUser stamp 1000 (Ok (Some "u4")) in
  let later := fireTimers (Ok (Some [alice])) (Err "row missing") (timers (effects signup st)) in
  blank (NewUser.email form) = false
  /\ blank (NewUser.password form) = false
  /\ NewUser.subscription_tier form = "premium"
  /\ requests (signup ;; later) st
     = [Backend (AuthSignUp "dave@example.com" "s3cret" "Dave");
        Backend (UpdateSubscription "u4" "premium" (stamp (1000 + 30 * 24 * 60 * 60 * 1000)%Z));
        Backend SelectProfiles]
  /\ users ((signup ;; later) st) = [alice].
Proof.
  intros form st signup later.
  split; [reflexivity|]. split; [reflexivity|]. split; [reflexivity|].
  destruct (premium_signup_end_to_end stamp 1000 "u4" (Ok (Some [alice]))
              (Err "row missing") st eq_refl eq_refl eq_refl) as (Q & U & _).
  split; [exact Q | exact U].
Defined.

(** ** Deleting a post *)

(** X16. A confirmed post deletion that succeeds leaves in the cache
    exactly the former posts whose id differs from the deleted one, after
    a single delete request and with the success toast; one that fails, by
    an error reply or a rejected call, leaves the cached posts as they were
    and raises one error toast and no success toast; a declined
    confirmation does nothing.  The accounts are never touched. *)
Theorem deleteBlog_outcomes :
  forall (id : string) (st : State),
    (forall d,
        let run := deleteBlog true (Ok d) id in
        (forall b, In b (blogs (run st)) <-> In b (blogs st) /\ Blog.id b <> id)
        /\ users (run st) = users st
        /\ requests run st = [Backend (DeleteBlog id)]
        /\ errorToasts (effects run st) = []
        /\ successToasts (effects run st) = ["Blog deleted successfully"])
    /\ (forall r,
          (forall d, r <> Ok d) ->
          let run := deleteBlog true r id in
          blogs (run st) = blogs st
          /\ users (run st) = users st
          /\ requests run st = [Backend (DeleteBlog id)]
          /\ (exists m, errorToasts (effects run st) = [m])
          /\ successToasts (effects run st) = [])
    /\ (forall r, deleteBlog false r id st = st).
Proof.
  intros id st. split; [|split; [|reflexivity]].
  - intros d run. subst run. split.
    + intros b. unfold deleteBlog. cbn [negb]. eval_ops.
      rewrite filter_In, negb_true_iff, js_eqb_neq. reflexivity.
    + split; [reflexivity|].
      unfold requests, effects, deleteBlog. cbn [negb]. run_effects.
      repeat split; reflexivity.
  - intros r Hr run. subst run.
    unfold requests, effects, deleteBlog. cbn [negb].
    destruct r as [d|m|]; [destruct (Hr d eq_refl)| |];
      repeat (split; [reflexivity|]); run_effects;
      (split; [reflexivity|]); (split; [eexists|]); reflexivity.
Qed.

Lemma deleteBlog_outcomes_witness :
  blogs (deleteBlog true (Ok tt) "b1" dashboard) = [notes]
  /\ blogs (deleteBlog true Throw "b1" dashboard) = [hello; notes].
Proof.
  split.
  - reflexivity.
  - assert (N : forall d : unit, @Throw unit <> Ok d) by discriminate.
    exact (proj1 (proj1 (proj2 (deleteBlog_outcomes "b1" dashboard)) Throw N)).
Defined.

(** ** Signing out and entering *)

(** X17. Signing out removes the stored token and sends the visitor to
    the login page, and nothing else: the cached lists and the in-memory
    admin session are left as they are.  Whatever the clock and the parser,
    the session check run after a sign-out turns the visitor away without
    admitting a session and without touching the storage again. *)
Theorem signOut_then_check_turns_away :
  forall (JSON_parse : string -> option JsonValue) (now : Z)
         (ru : reply (option (list User.t))) (rb : reply (option (list Blog.t)))
         (st : State),
    effects handleSignOut st = [RemoveItem "adminSession"; Navigate "/admin"]
    /\ localStorage (handleSignOut st) = None
    /\ adminSession (handleSignOut st) = adminSession st
    /\ users (handleSignOut st) = users st
    /\ blogs (handleSignOut st) = blogs st
    /\ turnsAway (sessionCheck JSON_parse now ru rb) (handleSignOut st).
Proof.
  intros JSON_parse now ru rb st.
  split; [unfold handleSignOut; run_effects; reflexivity|].
  repeat (split; [reflexivity|]).
  apply sessionCheck_absent. reflexivity.
Qed.

Lemma sessionCheck_null JSON_parse now ru rb st raw :
  localStorage st = Some raw -> raw <> "" ->
  JSON_parse raw = Some JNull ->
  invalidates (sessionCheck JSON_parse now ru rb) st.
Proof.
  intros E N P. unfold invalidates, effects, sessionCheck, invalidSession.
  rewrite E. destruct raw as [|c r]; [congruence|].
  cbn [Js.truthy negb]. rewrite P.
  run_effects. repeat split; auto.
Qed.

(** X18. A stored token that parses to the JSON value [null] is handled
    like an unparseable one: reading [loginTime] off it throws, so the
    check logs the failure, deletes the token and sends the visitor to the
    login page, admitting no session. *)
Theorem null_token_invalidated :
  forall (JSON_parse : string -> option JsonValue) (now : Z)
         (ru : reply (option (list User.t))) (rb : reply (option (list Blog.t)))
         (st : State) (raw : string),
    localStorage st = Some raw ->
    raw <> "" ->
    JSON_parse raw = Some JNull ->
    invalidates (sessionCheck JSON_parse now ru rb) st.
Proof.
  intros. eapply sessionCheck_null; eassumption.
Qed.

Lemma null_token_invalidated_witness :
  localStorage (initial (Some "null")) = Some "null"
  /\ sampleParse "null" = Some JNull
  /\ invalidates (sessionCheck sampleParse 5000 (Ok None) (Ok None))
       (initial (Some "null")).
Proof.
  split; [reflexivity|]. split; [reflexivity|].
  apply (null_token_invalidated sampleParse 5000 (Ok None) (Ok None)
           (initial (Some "null")) "null").
  - reflexivity.
  - discriminate.
  - reflexivity.
Defined.

Lemma fetchData_outcome ru rb st :
  users (fetchData ru rb st)
  = match ru with
    | Ok (Some rows) => rows
    | Ok None => []
    | _ => users st
    end
  /\ blogs (fetchData ru rb st)
     = match rb with
       | Ok (Some rows) => rows
       | Ok None => []
       | _ => blogs st
       end
  /\ loading (fetchData ru rb st) = false
  /\ requests (fetchData ru rb) st = [Backend SelectProfiles; Backend SelectBlogs].
Proof.
  unfold requests, effects, fetchData, fetchUsers, fetchBlogs.
  destruct ru as [[l|]|m|], rb as [[l'|]|m'|];
    repeat (split; [reflexivity|]); run_effects; reflexivity.
Qed.

(** X19. The refresh started on mount and by the Refresh button treats the
    two lists independently: each cached list becomes the rows of its own
    reply when that fetch succeeds and stays as it was when it fails,
    whatever happens to the other; both selects are always issued, and the
    loading flag is off at the end in every case. *)
Theorem fetchData_lists_independent :
  forall (ru : reply (option (list User.t))) (rb : reply (option (list Blog.t)))
         (st : State),
    users (fetchData ru rb st)
    = match ru with
      | Ok (Some rows) => rows
      | Ok None => []
      | _ => users st
      end
    /\ blogs (fetchData ru rb st)
       = match rb with
         | Ok (Some rows) => rows
         | Ok None => []
         | _ => blogs st
         end
    /\ loading (fetchData ru rb st) = false
    /\ requests (fetchData ru rb) st = [Backend SelectProfiles; Backend SelectBlogs].
Proof.
  intros. apply fetchData_outcome.
Qed.




(** ** The change listeners *)

(** X21. A change notification re-fetches the list of its own table and
    nothing else: the profiles listener issues one select on the profiles
    and never alters the cached posts, the blogs listener issues one select
    on the blogs and never alters the cached accounts; each replaces its
    list by the rows returned, or leaves it as it was when the fetch
    fails. *)
Theorem change_listeners_refetch_own_table :
  forall (st : State),
    (forall r,
        blogs (onUsersChange r st) = blogs st
        /\ requests (onUsersChange r) st = [Backend SelectProfiles]
        /\ users (onUsersChange r st)
           = match r with
             | Ok (Some rows) => rows
             | Ok None => []
             | _ => users st
             end)
    /\ (forall r,
          users (onBlogsChange r st) = users st
          /\ requests (onBlogsChange r) st = [Backend SelectBlogs]
          /\ blogs (onBlogsChange r st)
             = match r with
               | Ok (Some rows) => rows
               | Ok None => []
               | _ => blogs st
               end).
Proof.
  intros st. split; intros r;
    unfold requests, effects, onUsersChange, onBlogsChange, fetchUsers, fetchBlogs;
    destruct r as [[l|]|m|];
    (split; [reflexivity|]); (split; [run_effects; reflexivity|]); reflexivity.
Qed.

(** ** The users table and the edit dialog *)

Lemma planLabel_premium (u : User.t) :
  planLabel u = if string_dec (User.subscription_tier u) "premium" then "Pro" else "Free".
Proof.
  unfold planLabel.
  destruct (string_dec (User.subscription_tier u) "premium") as [E|N].
  - apply js_eqb_eq in E. rewrite E. reflexivity.
  - apply js_eqb_neq in N. rewrite N. reflexivity.
Qed.

(** X22. The table and the figures agree: the number of rows whose plan
    badge reads "Pro" is the premium count shown in the card, and the rows
    whose badge reads "Free" are all the others. *)
Theorem pro_badges_match_premium_count :
  forall (l : list User.t),
    Z.of_nat (count_occ string_dec (map planLabel l) "Pro") = premiumUsers l
    /\ Z.of_nat (count_occ string_dec (map planLabel l) "Free")
       = (totalUsers l - premiumUsers l)%Z.
Proof.
  intros l. rewrite premiumUsers_count. unfold totalUsers.
  induction l as [|u l [IH1 IH2]]; [split; reflexivity|].
  cbn [map count_occ countPremium List.length]. rewrite planLabel_premium.
  destruct (string_dec (User.subscription_tier u) "premium");
    destruct (string_dec _ "Pro"), (string_dec _ "Free");
    try discriminate; try congruence; split; lia.
Qed.

Lemma splitHead_no_sep (sep : ascii) (s : string) :
  occurrences sep (splitHead sep s) = 0%nat.
Proof.
  induction s as [|c r IH]; simpl; [reflexivity|].
  destruct (Ascii.eqb c sep) eqn:Q; simpl; [reflexivity|].
  rewrite Q. exact IH.
Qed.

Lemma splitHead_whole (sep : ascii) (s : string) :
  occurrences sep s = 0%nat -> splitHead sep s = s.
Proof.
  induction s as [|c r IH]; simpl; [reflexivity|].
  destruct (Ascii.eqb c sep); simpl; [discriminate|].
  intros H. f_equal. apply IH. exact H.
Qed.

Lemma splitHead_prefix (sep : ascii) (s : string) :
  exists rest, s = (splitHead sep s ++ rest)%string.
Proof.
  induction s as [|c r [rest IH]]; simpl; [exists ""; reflexivity|].
  destruct (Ascii.eqb c sep); simpl.
  - exists (String c r). reflexivity.
  - exists rest. f_equal. exact IH.
Qed.

Lemma dateInputValue_no_T (d : option User.t) :
  occurrences "T" (dateInputValue d) = 0%nat.
Proof.
  unfold dateInputValue. destruct d as [u|]; [|reflexivity].
  destruct (User.subscription_end u) as [e|]; [|reflexivity].
  destruct (Js.truthy e); [apply splitHead_no_sep | reflexivity].
Qed.

(** X23. The date field of the edit-user dialog shows the part of the
    draft's end date before the first "T" (the whole of it when there is
    none, the empty text when the draft has no end date), so what it shows
    never contains a "T" and is a prefix of the stored value; and writing
    the shown value back through the field's change handler is stable: the
    field then shows the same value again. *)
Theorem date_field_round_trip :
  forall (st : State),
    let shown := dateInputValue (editingUser st) in
    occurrences "T" shown = 0%nat
    /\ (forall u e,
          editingUser st = Some u -> User.subscription_end u = Some e ->
          (exists rest, e = (shown ++ rest)%string)
          /\ (occurrences "T" e = 0%nat -> shown = e))
    /\ (forall u,
          editingUser st = Some u -> User.subscription_end u = None -> shown = "")
    /\ dateInputValue (editingUser (changeEditingUserEnd shown st)) = shown.
Proof.
  intros st shown. subst shown.
  split; [apply dateInputValue_no_T|]. split; [|split].
  - intros u e E H. unfold dateInputValue. rewrite E, H.
    destruct e as [|c r]; cbn [Js.truthy].
    + split; [exists ""; reflexivity | reflexivity].
    + split; [apply splitHead_prefix | apply splitHead_whole].
  - intros u E H. unfold dateInputValue. rewrite E, H. reflexivity.
  - pose proof (dateInputValue_no_T (editingUser st)) as N.
    unfold changeEditingUserEnd. cbn [editingUser setEditingUser].
    destruct (editingUser st) as [u|] eqn:E; [|reflexivity].
    remember (dateInputValue (Some u)) as shown eqn:D.
    cbn [dateInputValue User.subscription_end User.with_subscription_end].
    destruct shown as [|c r]; [reflexivity|].
    cbn [Js.truthy]. apply splitHead_whole. exact N.
Qed.

Lemma date_field_round_trip_witness :
  editingUser (editing alice) = Some alice
  /\ User.subscription_end alice = Some "2030-01-01T00:00:00.000Z"
  /\ dateInputValue (editingUser (editing alice)) = "2030-01-01"
  /\ (exists rest,
        "2030-01-01T00:00:00.000Z"
        = (dateInputValue (editingUser (editing alice)) ++ rest)%string).
Proof.
  split; [reflexivity|]. split; [reflexivity|]. split; [reflexivity|].
  destruct (date_field_round_trip (editing alice)) as (_ & P & _).
  exact (proj1 (P alice "2030-01-01T00:00:00.000Z" eq_refl eq_refl)).
Defined.

(** X24. What the date field does to a premium draft on save: a date typed
    into it is submitted as typed, while clearing the field makes the save
    submit a fresh end date 30 days after the clock reading of the update,
    whatever end date the account had before. *)
Theorem cleared_date_resets_expiry :
  forall (toISOString : Z -> string) (now : Z) (r : reply unit)
         (st : State) (e : User.t),
    editingUser st = Some e ->
    User.subscription_tier e = "premium" ->
    requests (updateUser toISOString now r) (changeEditingUserEnd "" st)
    = [Backend
         (UpdateProfile (User.id e)
            (mkProfilePatch (User.full_name e) "premium"
               (Some (toISOString (now + 30 * 24 * 60 * 60 * 1000)%Z))))]
    /\ (forall typed,
          typed <> "" ->
          requests (updateUser toISOString now r) (changeEditingUserEnd typed st)
          = [Backend
               (UpdateProfile (User.id e)
                  (mkProfilePatch (User.full_name e) "premium" (Some typed)))]).
Proof.
  intros toISOString now r st e E T.
  assert (D : forall v,
             editingUser (changeEditingUserEnd v st)
             = Some (User.with_subscription_end e (Some v))).
  { intros v. unfold changeEditingUserEnd. cbn [editingUser setEditingUser].
    rewrite E. reflexivity. }
  split.
  - rewrite (updateUser_requests _ _ _ _ _ (D "")).
    unfold subscriptionEnd. cbn [User.subscription_tier User.with_subscription_end
      User.id User.full_name User.subscription_end].
    rewrite T. reflexivity.
  - intros typed Hne. rewrite (updateUser_requests _ _ _ _ _ (D typed)).
    unfold subscriptionEnd. cbn [User.subscription_tier User.with_subscription_end
      User.id User.full_name User.subscription_end].
    rewrite T. destruct typed; [congruence | reflexivity].
Qed.

Lemma cleared_date_resets_expiry_witness :
  editingUser (editing carol) = Some carol
  /\ User.subscription_tier carol = "premium"
  /\ requests (updateUser stamp 1000 (Ok tt)) (changeEditingUserEnd "" (editing carol))
     = [Backend
          (UpdateProfile "u3"
             (mkProfilePatch "Carol" "premium"
                (Some (stamp (1000 + 30 * 24 * 60 * 60 * 1000)%Z))))].
Proof.
  split; [reflexivity|]. split; [reflexivity|].
  exact (proj1 (cleared_date_resets_expiry stamp 1000 (Ok tt) (editing carol) carol
                  eq_refl eq_refl)).
Defined.

(** ** The shape of a submitted excerpt *)

Lemma string_length_app (a b : string) :
  String.length (a ++ b) = (String.length a + String.length b)%nat.
Proof. induction a as [|c a IH]; simpl; [reflexivity | rewrite IH; reflexivity]. Qed.

Lemma excerptRule_shape (excerpt content : string) :
  excerptRule excerpt content <> ""
  /\ (excerpt = "" ->
      String.length (excerptRule excerpt content)
      = (Nat.min 150 (String.length content) + 3)%nat).
Proof.
  unfold excerptRule. destruct (string_dec excerpt "") as [E|N].
  - split.
    + intros H. apply (f_equal String.length) in H.
      rewrite string_length_app in H. simpl in H. lia.
    + intros _. rewrite string_length_app, firstChars_length. reflexivity.
  - split; [exact N | intros E; contradiction].
Qed.

(** X25. A post is never submitted with an empty excerpt: what
    [createBlog] inserts and what [updateBlog] sends always carries a
    non-empty excerpt; and an excerpt that was derived from the content has
    exactly min(150, length of the content) + 3 characters, hence at most
    153. *)
Theorem submitted_excerpt_shape :
  (forall nb : NewBlog.t,
      data_excerpt (blogData nb) <> ""
      /\ (NewBlog.excerpt nb = "" ->
          String.length (data_excerpt (blogData nb))
          = (Nat.min 150 (String.length (NewBlog.content nb)) + 3)%nat
          /\ (String.length (data_excerpt (blogData nb)) <= 153)%nat))
  /\ (forall b : Blog.t,
        data_excerpt (blogPatch b) <> ""
        /\ (Blog.excerpt b = "" ->
            String.length (data_excerpt (blogPatch b))
            = (Nat.min 150 (String.length (Blog.content b)) + 3)%nat
            /\ (String.length (data_excerpt (blogPatch b)) <= 153)%nat)).
Proof.
  split.
  - intros nb. unfold blogData. cbn [data_excerpt]. rewrite js_or_rule.
    destruct (excerptRule_shape (NewBlog.excerpt nb) (NewBlog.content nb)) as [A B].
    split; [exact A|]. intros E. rewrite (B E). lia.
  - intros b. unfold blogPatch. cbn [data_excerpt]. rewrite js_or_rule.
    destruct (excerptRule_shape (Blog.excerpt b) (Blog.content b)) as [A B].
    split; [exact A|]. intros E. rewrite (B E). lia.
Qed.

Lemma submitted_excerpt_shape_witness :
  NewBlog.excerpt draftPost = ""
  /\ String.length (data_excerpt (blogData draftPost))
     = (Nat.min 150 (String.length (NewBlog.content draftPost)) + 3)%nat.
Proof.
  split; [reflexivity|].
  exact (proj1 (proj2 (proj1 submitted_excerpt_shape draftPost) eq_refl)).
Defined.

(** ** From the dialog to the cache *)

(** X26. An edit made through the dialog reaches the cache as typed.  In a
    cache with pairwise distinct ids, opening a cached row, typing a name,
    choosing the tier "free" and saving leaves, once the server accepts,
    that row at its position with the typed name, tier free and no end
    date, its other columns as before, and every other row untouched; the
    update sent carries exactly the typed name, "free" and a null end
    date. *)
Theorem dialog_edit_reaches_cache :
  forall (toISOString : Z -> string) (now : Z) (d : unit) (st : State)
         (u : User.t) (name : string) (i : nat),
    NoDup (userIds (users st)) ->
    nth_error (users st) i = Some u ->
    let edit :=
      openEditUser u ;; changeEditingUserName name ;; changeEditingUserTier "free" in
    let st' := (edit ;; updateUser toISOString now (Ok d)) st in
    nth_error (users st') i
    = Some (User.mk (User.id u) (User.email u) name "free"
              (User.subscription_start u) None (User.document_count u)
              (User.created_at u))
    /\ (forall j, j <> i -> nth_error (users st') j = nth_error (users st) j)
    /\ requests (updateUser toISOString now (Ok d)) (edit st)
       = [Backend (UpdateProfile (User.id u) (mkProfilePatch name "free" None))].
Proof.
  intros toISOString now d st u name i N Hi edit st'. subst st' edit.
  unfold andThen.
  set (draft := User.mk (User.id u) (User.email u) name "free"
                  (User.subscription_start u) (User.subscription_end u)
                  (User.document_count u) (User.created_at u)).
  set (st1 := changeEditingUserTier "free"
                (changeEditingUserName name (openEditUser u st))).
  assert (E : editingUser st1 = Some draft) by reflexivity.
  assert (U : users st1 = users st) by reflexivity.
  rewrite (updateUser_ok_users _ _ _ _ _ E), (updateUser_requests _ _ _ _ _ E), U.
  split; [|split; [|reflexivity]].
  - erewrite map_nth_error by exact Hi.
    replace (Js.eqb (User.id u) (User.id draft)) with true
      by (symmetry; apply js_eqb_eq; reflexivity).
    reflexivity.
  - intros j Hj. rewrite nth_error_map.
    destruct (nth_error (users st) j) as [v|] eqn:Hv; [|reflexivity].
    cbn [option_map].
    destruct (Js.eqb (User.id v) (User.id draft)) eqn:Q; [|reflexivity].
    exfalso. apply js_eqb_eq in Q. cbn [draft User.id] in Q.
    assert (Huv : v = u).
    { eapply unique_id_same_row; eauto using nth_error_In. }
    subst v. apply Hj.
    apply (proj1 (NoDup_nth_error (users st)));
      [ | apply nth_error_Some; congruence | congruence ].
    clear - N. unfold userIds in N.
    eapply NoDup_map_inv. exact N.
Qed.

Lemma dialog_edit_reaches_cache_witness :
  NoDup (userIds (users dashboard))
  /\ nth_error (users dashboard) 0 = Some alice
  /\ nth_error
       (users ((openEditUser alice ;; changeEditingUserName "Alice B."
                ;; changeEditingUserTier "free"
                ;; updateUser stamp 1000 (Ok tt)) dashboard)) 0
     = Some (User.mk "u1" "alice@example.com" "Alice B." "free"
               "2024-01-01T00:00:00.000Z" None 3 "2024-01-01T00:00:00.000Z").
Proof.
  assert (N : NoDup (userIds (users dashboard))).
  { repeat constructor; simpl; intuition discriminate. }
  split; [exact N|]. split; [reflexivity|].
  exact (proj1 (dialog_edit_reaches_cache stamp 1000 tt dashboard alice "Alice B."
                  0%nat N eq_refl)).
Defined.
